(** * The ingestion coordinator of vECS: [add_lambda_function.py]

    A shallow embedding of the AWS Lambda handler that reacts to S3
    notifications (src/lambda/s3_postgres_lambda/add_lambda_function.py):
    [lambda_handler], [does_object_exist], [delete_from_postgres] and
    [add_files], together with the three library functions the handler
    applies to the object key ([urllib.parse.unquote], [str.replace],
    [os.path.basename]).

    Conventions.
    - A Python [str] is a [string]: the sequence of the bytes of its UTF-8
      encoding, which is well-formed for the keys and names an invocation
      receives.  [str.replace] and [os.path.basename] with ASCII patterns
      act on that encoding as they act on the text.
    - The services the handler talks to (S3, Batch, PostgreSQL through
      psycopg2), [uuid.uuid4] and the process environment are not part of
      the repository.  They are the fields of [World] and [Process]: each
      call is answered by the world, with a value or with an exception, and
      is recorded in the trace of the invocation.
    - Exceptions are values of [exn]; a computation is a function from the
      state to an [outcome] and the new state. *)

From Stdlib Require Import ZArith String Ascii.
From stdpp Require Import base option list strings gmap.

Local Open Scope string_scope.
Local Open Scope Z_scope.
Local Open Scope list_scope.

(** ** Strings *)

Module Str.

(** The value of a hexadecimal digit, both cases, as in the table
    [_hextobyte] of [urllib.parse]. *)
Definition hex_digit (c : ascii) : option N :=
  let n := N_of_ascii c in
  if ((48 <=? n) && (n <=? 57))%N then Some (n - 48)%N
  else if ((65 <=? n) && (n <=? 70))%N then Some (n - 55)%N
  else if ((97 <=? n) && (n <=? 102))%N then Some (n - 87)%N
  else None.

(** [urllib.parse.unquote_to_bytes] on an ASCII string: every [%XY] with
    two hexadecimal digits is replaced by the byte [0xXY]; a [%] that is
    not followed by two such digits stays.  Decoded bytes are not scanned
    again. *)
Fixpoint unquote_to_bytes (s : string) : string :=
  match s with
  | EmptyString => EmptyString
  | String c t =>
      if Ascii.eqb c "%" then
        match t with
        | String a (String b rest) =>
            match hex_digit a, hex_digit b with
            | Some h, Some l =>
                String (ascii_of_N (16 * h + l)) (unquote_to_bytes rest)
            | _, _ => String c (unquote_to_bytes t)
            end
        | _ => String c (unquote_to_bytes t)
        end
      else String c (unquote_to_bytes t)
  end.

Definition in_range (lo hi : N) (c : ascii) : bool :=
  ((lo <=? N_of_ascii c) && (N_of_ascii c <=? hi))%N.

(** A continuation byte of UTF-8, [80..BF]. *)
Definition continuation (c : ascii) : bool := in_range 128 191 c.

(** The second byte a lead byte admits: [E0], [ED], [F0] and [F4] narrow
    the range (no overlong form, no surrogate, nothing above U+10FFFF). *)
Definition second_byte (lead c : ascii) : bool :=
  let l := N_of_ascii lead in
  if (l =? 224)%N then in_range 160 191 c
  else if (l =? 237)%N then in_range 128 159 c
  else if (l =? 240)%N then in_range 144 191 c
  else if (l =? 244)%N then in_range 128 143 c
  else continuation c.

(** The length of the sequence a lead byte starts: [0] for a byte that
    starts none ([80..C1] and [F5..FF]). *)
Definition sequence_length (lead : ascii) : nat :=
  let l := N_of_ascii lead in
  if (l <? 128)%N then 1
  else if (l <? 194)%N then 0
  else if (l <? 224)%N then 2
  else if (l <? 240)%N then 3
  else if (l <? 245)%N then 4
  else 0.

(** U+FFFD in UTF-8. *)
Definition replacement_character : string :=
  String (ascii_of_N 239) (String (ascii_of_N 191) (String (ascii_of_N 189) EmptyString)).

(** [bytes.decode('utf-8', 'replace')], the result in UTF-8 again: a
    well-formed sequence stays; a byte that starts no sequence, and the
    well-formed beginning of a sequence that is cut short by a wrong byte
    or by the end, are replaced by one U+FFFD each. *)
Fixpoint decode_replace (s : string) : string :=
  match s with
  | EmptyString => EmptyString
  | String b rest =>
      match sequence_length b with
      | 1%nat => String b (decode_replace rest)
      | 2%nat =>
          match rest with
          | String c1 r1 =>
              if continuation c1 then String b (String c1 (decode_replace r1))
              else replacement_character +:+ decode_replace rest
          | EmptyString => replacement_character
          end
      | 3%nat =>
          match rest with
          | String c1 r1 =>
              if second_byte b c1 then
                match r1 with
                | String c2 r2 =>
                    if continuation c2
                    then String b (String c1 (String c2 (decode_replace r2)))
                    else replacement_character +:+ decode_replace r1
                | EmptyString => replacement_character
                end
              else replacement_character +:+ decode_replace rest
          | EmptyString => replacement_character
          end
      | 4%nat =>
          match rest with
          | String c1 r1 =>
              if second_byte b c1 then
                match r1 with
                | String c2 r2 =>
                    if continuation c2 then
                      match r2 with
                      | String c3 r3 =>
                          if continuation c3
                          then String b (String c1 (String c2 (String c3
                                 (decode_replace r3))))
                          else replacement_character +:+ decode_replace r2
                      | EmptyString => replacement_character
                      end
                    else replacement_character +:+ decode_replace r1
                | EmptyString => replacement_character
                end
              else replacement_character +:+ decode_replace rest
          | EmptyString => replacement_character
          end
      | _ => replacement_character +:+ decode_replace rest
      end
  end.

Definition is_ascii (c : ascii) : bool := (N_of_ascii c <? 128)%N.

(** The maximal runs of ASCII characters and of other bytes of a string,
    each with [true] for an ASCII run. *)
Fixpoint ascii_runs (s : string) : list (bool * string) :=
  match s with
  | EmptyString => []
  | String c t =>
      match ascii_runs t with
      | (b, run) :: runs =>
          if Bool.eqb b (is_ascii c) then (b, String c run) :: runs
          else (is_ascii c, String c EmptyString) :: (b, run) :: runs
      | [] => [(is_ascii c, String c EmptyString)]
      end
  end.

(** [old] is a prefix of [s]. *)
Fixpoint startswith (old s : string) : bool :=
  match old, s with
  | EmptyString, _ => true
  | String a old', String b s' => Ascii.eqb a b && startswith old' s'
  | String _ _, EmptyString => false
  end.

(** [s.replace(old, new)] for a non-empty [old]: the occurrences of [old]
    are found from left to right and do not overlap.  [skip] counts the
    characters of a found occurrence that are still to be passed over. *)
Fixpoint replace_from (old new : string) (skip : nat) (s : string) : string :=
  match s with
  | EmptyString => EmptyString
  | String c t =>
      match skip with
      | S k => replace_from old new k t
      | O =>
          if startswith old s
          then new +:+ replace_from old new (Nat.pred (String.length old)) t
          else String c (replace_from old new O t)
      end
  end.

(** [s.replace("", new)] puts [new] before every character (before the
    first byte of its encoding) and at the end. *)
Fixpoint intersperse (new s : string) : string :=
  match s with
  | EmptyString => new
  | String c t =>
      if continuation c then String c (intersperse new t)
      else new +:+ String c (intersperse new t)
  end.

Definition replace (old new s : string) : string :=
  match old with
  | EmptyString => intersperse new s
  | String _ _ => replace_from old new O s
  end.

(** [s.rfind(c)]: the highest index of [c] in [s], or [-1].  [i] is the
    index of the first character of [s]. *)
Fixpoint rfind_from (c : ascii) (i : Z) (s : string) : Z :=
  match s with
  | EmptyString => -1
  | String a t =>
      let r := rfind_from c (i + 1) t in
      if 0 <=? r then r else if Ascii.eqb a c then i else -1
  end.

Definition rfind (c : ascii) (s : string) : Z := rfind_from c 0 s.

(** The slice [s[i:]] for [0 <= i]. *)
Fixpoint slice_from (i : nat) (s : string) : string :=
  match i, s with
  | O, _ => s
  | S _, EmptyString => EmptyString
  | S k, String _ t => slice_from k t
  end.

(** [os.path.basename] of [posixpath]:
    [i = p.rfind('/') + 1; return p[i:]]. *)
Definition basename (p : string) : string :=
  let i := rfind "/" p + 1 in
  slice_from (Z.to_nat i) p.

(** [pat] occurs in [s] ([pat in s]). *)
Fixpoint contains (pat s : string) : bool :=
  startswith pat s ||
  match s with
  | EmptyString => false
  | String _ t => contains pat t
  end.

(** [urllib.parse.unquote(string)], with the default [encoding='utf-8'] and
    [errors='replace']: a string without [%] is returned as it is; else
    every run of ASCII characters is percent-decoded and the bytes are
    decoded as UTF-8, and the characters between the runs stay. *)
Definition unquote (s : string) : string :=
  if contains "%" s then
    String.concat ""
      (map (fun part : bool * string =>
              if fst part then decode_replace (unquote_to_bytes (snd part))
              else snd part)
           (ascii_runs s))
  else s.

End Str.

(** ** Exceptions, outcomes and computations *)

(** The exceptions of an invocation.  All of them are subclasses of
    [Exception], so [except Exception] catches each one;
    [except botocore.exceptions.ClientError] catches [ClientError] only.
    What is no [Exception] ([KeyboardInterrupt], [SystemExit]) is raised by
    none of the calls modelled here. *)
Inductive exn : Type :=
  | KeyError (key : string)            (* [os.environ[key]], key not set *)
  | UnboundLocalError (name : string)  (* a local read before its assignment *)
  | ClientError (code : string)        (* botocore: [e.response['Error']['Code']] *)
  | ServiceError (descr : string).     (* any other error raised by a client
                                          library: psycopg2, botocore, ... *)

Inductive outcome (A : Type) : Type :=
  | Return (a : A)
  | Raise (e : exn).
Arguments Return {A} a.
Arguments Raise {A} e.

(** A computation on a state [S].  The state reached is kept when an
    exception is raised: what was done before it stays done. *)
Definition M (S A : Type) : Type := S -> outcome A * S.

Definition ret {S A} (a : A) : M S A := fun s => (Return a, s).

Definition bind {S A B} (m : M S A) (k : A -> M S B) : M S B :=
  fun s =>
    match m s with
    | (Return a, s') => k a s'
    | (Raise e, s') => (Raise e, s')
    end.

Definition raise {S A} (e : exn) : M S A := fun s => (Raise e, s).

Definition get {S} : M S S := fun s => (Return s, s).

Definition modify {S} (f : S -> S) : M S unit := fun s => (Return tt, f s).

Definition lift_outcome {S A} (o : outcome A) : M S A := fun s => (o, s).

(** [try: body / except Exception as e: handler e]. *)
Definition try_except {S A} (body : M S A) (handler : exn -> M S A) : M S A :=
  fun s =>
    match body s with
    | (Return a, s') => (Return a, s')
    | (Raise e, s') => handler e s'
    end.

(** [try: body / finally: final].  [final] runs in both cases; an exception
    raised in it replaces the outcome of [body]. *)
Definition try_finally {S A} (body : M S A) (final : M S unit) : M S A :=
  fun s =>
    match body s with
    | (r, s') =>
        match final s' with
        | (Return _, s'') => (r, s'')
        | (Raise e, s'') => (Raise e, s'')
        end
    end.

Declare Scope comp_scope.
Delimit Scope comp_scope with comp.
Notation "x <- m ;; k" := (bind m (fun x => k))
  (at level 100, m at next level, right associativity) : comp_scope.
Notation "m ;;; k" := (bind m (fun _ => k))
  (at level 100, right associativity) : comp_scope.
Local Open Scope comp_scope.

(** ** Data model *)

(** An entry of [response['Contents']] of [list_objects_v2]. *)
Record S3Object : Type := { Key : string; Size : Z }.

(** The connection parameters, the table and the file name
    [delete_from_postgres] is called with. *)
Record DeletionRequest : Type := {
  del_db_name : string;
  del_user : string;
  del_password : string;
  del_host : string;
  del_port : string;
  del_table_name : string;
  del_filename : string
}.

(** The keyword arguments of [batch_client.submit_job].  [environment] is
    [containerOverrides['environment']], a list of name and value. *)
Record ProcessingJobRequest : Type := {
  jobName : string;
  jobQueue : string;
  jobDefinition : string;
  environment : list (string * string)
}.

(** The value of the first entry called [name] of an environment list. *)
Fixpoint env_value (name : string) (l : list (string * string)) : option string :=
  match l with
  | [] => None
  | (n, v) :: l' => if String.eqb n name then Some v else env_value name l'
  end.

(** The input locator of a job: the entry [AWS_S3_URL]. *)
Definition job_uri (r : ProcessingJobRequest) : option string :=
  env_value "AWS_S3_URL" (environment r).

(** The text [json.dumps(s)] of a string [s].  The serialisation is kept
    symbolic: two texts are equal when the strings are. *)
Inductive json_text : Type := json_dumps (s : string).

(** The dictionary a handler returns. *)
Record Response : Type := { statusCode : Z; body : json_text }.

(** One [print] statement each. *)
Inductive LogLine : Type :=
  | LogStackDeleted          (* "Stack is being deleted, no Batch job will be started." *)
  | LogS3Event               (* "S3 event received. Determining if ..." *)
  | LogObjectExists (key : string)
                             (* "Object {key} already exists. Running delete logic." *)
  | LogErrorDeleting (e : exn)
                             (* "Error deleting from Postgres: {e}" *)
  | LogCustomResourceEvent   (* "Custom resource event received. Listing ..." *)
  | LogObjects (contents : list S3Object)
                             (* "The objects I'm going to iterate through are: ..." *)
  | LogSkippingFolder (key : string)
                             (* "Skipping folder: {key}" *)
  | LogNoObjects             (* "No objects found in the bucket." *)
  | LogExecutingQuery (query filename : string)
                             (* "Executing query: {query} with filename: {filename}" *)
  | LogRecordsDeleted (rowcount : Z)
                             (* "{rowcount} record(s) deleted." *)
  | LogErrorWhileDeleting (e : exn)
                             (* "Error while deleting records from Postgres: %s", error *)
  | LogProcessTook.          (* "Process took {elapsed} seconds." *)

(** What an invocation does to the outside, in the order it does it. *)
Inductive Event : Type :=
  | Print (line : LogLine)
  | HeadObject (bucket key : string)               (* s3_client.head_object *)
  | ListObjectsV2 (bucket prefix : string)         (* s3_client.list_objects_v2 *)
  | SubmitJob (request : ProcessingJobRequest)     (* batch_client.submit_job *)
  | Delete (request : DeletionRequest)             (* delete_from_postgres is called *)
  | Connect (dbname user password host port : string)   (* psycopg2.connect *)
  | OpenCursor                                     (* connection.cursor() *)
  | Execute (query : string) (params : list string)     (* cursor.execute *)
  | Commit                                         (* connection.commit() *)
  | CloseCursor                                    (* cursor.close() *)
  | CloseConnection.                               (* connection.close() *)

Definition Trace : Type := list Event.

(** The DeletionRequests and the ProcessingJobRequests of a trace. *)
Definition deletion_requests (tr : Trace) : list DeletionRequest :=
  omap (fun ev => match ev with Delete r => Some r | _ => None end) tr.

Definition job_requests (tr : Trace) : list ProcessingJobRequest :=
  omap (fun ev => match ev with SubmitJob r => Some r | _ => None end) tr.

(** ** The world of an invocation *)

(** The PostgreSQL server as psycopg2 shows it: the result of each call
    [delete_from_postgres] makes. *)
Record Database : Type := {
  db_connect : string -> string -> string -> string -> string -> outcome unit;
  db_cursor : outcome unit;
  db_execute : string -> list string -> outcome unit;
  db_commit : outcome unit;
  db_rowcount : Z;
  db_cursor_close : outcome unit;
  db_connection_close : outcome unit
}.

(** S3, Batch, PostgreSQL and the random source.  [submit_job n r] answers
    the call that follows [n] earlier ones of the same invocation with the
    [jobId] of the response; [uuid4 n] is the identifier drawn then. *)
Record World : Type := {
  head_object : string -> string -> outcome unit;
  list_objects_v2 : string -> string -> outcome (option (list S3Object));
  submit_job : nat -> ProcessingJobRequest -> outcome string;
  uuid4 : nat -> string;
  psycopg2 : Database
}.

(** The process: [os.environ] and the text of [s3_postgres_ingest.py], read
    when the module is loaded. *)
Record Process : Type := {
  environ : gmap string string;
  app_script : string
}.

(** The event passed to the handler: [event.get('RequestType')] and, when
    the key [Records] is there, the bucket name and the object key of each
    record ([record['s3']['bucket']['name']],
    [record['s3']['object']['key']]). *)
Record S3Record : Type := { bucket_name : string; object_key : string }.

Record LambdaEvent : Type := {
  RequestType : option string;
  Records : option (list S3Record)
}.

(** ** The program *)

(** States that carry the trace of the invocation. *)
Class Traced (S : Type) : Type := record_event : Event -> S -> S.

#[global] Instance Trace_traced : Traced Trace := fun ev tr => tr ++ [ev].

Definition emit {S} `{Traced S} (ev : Event) : M S unit :=
  modify (record_event ev).

Definition print {S} `{Traced S} (line : LogLine) : M S unit :=
  emit (Print line).

(** [try: body / except botocore.exceptions.ClientError as e: handler];
    [handler] gets [e.response['Error']['Code']].  Other exceptions pass. *)
Definition try_except_ClientError {S A}
    (body : M S A) (handler : string -> M S A) : M S A :=
  fun s =>
    match body s with
    | (Raise (ClientError code), s') => handler code s'
    | r => r
    end.

(** A local variable that is assigned on some paths only. *)
Inductive local (A : Type) : Type :=
  | Unbound
  | Bound (a : A).
Arguments Unbound {A}.
Arguments Bound {A} a.

(** The objects psycopg2 hands out. *)
Inductive Connection : Type := connection_object.
Inductive Cursor : Type := cursor_object.

(** The frame of [delete_from_postgres]: its locals [connection] ([None] is
    Python's [None]) and [cursor], next to the trace. *)
Record Frame : Type := {
  out : Trace;
  connection : option Connection;
  cursor : local Cursor
}.

#[global] Instance Frame_traced : Traced Frame := fun ev f =>
  {| out := out f ++ [ev]; connection := connection f; cursor := cursor f |}.

Definition assign_connection (c : Connection) : M Frame unit :=
  modify (fun f => {| out := out f; connection := Some c; cursor := cursor f |}).

Definition assign_cursor (c : Cursor) : M Frame unit :=
  modify (fun f => {| out := out f; connection := connection f; cursor := Bound c |}).

(** Reading the local [cursor]. *)
Definition read_cursor : M Frame Cursor :=
  f <- get ;;
  match cursor f with
  | Bound c => ret c
  | Unbound => raise (UnboundLocalError "cursor")
  end.

(** A function body run in a fresh frame; the trace goes in and out. *)
Definition in_frame {A} (body : M Frame A) : M Trace A :=
  fun tr =>
    match body {| out := tr; connection := None; cursor := Unbound |} with
    | (r, f) => (r, out f)
    end.

Section Program.

Context (proc : Process) (w : World).

(** [os.environ[key]] and [os.environ.get(key, default)]. *)
Definition os_environ {S} (key : string) : M S string :=
  match environ proc !! key with
  | Some v => ret v
  | None => raise (KeyError key)
  end.

Definition os_environ_get (key default : string) : string :=
  match environ proc !! key with
  | Some v => v
  | None => default
  end.

(** The number of [submit_job] calls made so far. *)
Definition jobs_so_far : M Trace nat :=
  tr <- get ;; ret (length (job_requests tr)).

Definition delete_from_postgres
    (db_name user password host port table_name filename : string) : M Trace unit :=
  let db := psycopg2 w in
  emit (Delete {| del_db_name := db_name; del_user := user; del_password := password;
                  del_host := host; del_port := port; del_table_name := table_name;
                  del_filename := filename |}) ;;;
  in_frame (
    (* connection = None *)
    try_finally
      (try_except
         (emit (Connect db_name user password host port) ;;;
          lift_outcome (db_connect db db_name user password host port) ;;;
          assign_connection connection_object ;;;
          emit OpenCursor ;;;
          lift_outcome (db_cursor db) ;;;
          assign_cursor cursor_object ;;;
          let delete_query := "DELETE FROM " +:+ table_name +:+ " WHERE filename = %s" in
          print (LogExecutingQuery delete_query filename) ;;;
          emit (Execute delete_query [filename]) ;;;
          lift_outcome (db_execute db delete_query [filename]) ;;;
          emit Commit ;;;
          lift_outcome (db_commit db) ;;;
          print (LogRecordsDeleted (db_rowcount db)))
         (fun error => print (LogErrorWhileDeleting error)))
      ((* if cursor: cursor.close() *)
       _ <- read_cursor ;;
       emit CloseCursor ;;;
       lift_outcome (db_cursor_close db) ;;;
       (* if connection: connection.close() *)
       f <- get ;;
       match connection f with
       | Some _ => emit CloseConnection ;;; lift_outcome (db_connection_close db)
       | None => ret tt
       end) ;;;
    print LogProcessTook).

Definition does_object_exist (bucket_name document_key : string) : M Trace bool :=
  try_except_ClientError
    (emit (HeadObject bucket_name document_key) ;;;
     lift_outcome (head_object w bucket_name document_key) ;;;
     ret true)
    (fun code =>
       if String.eqb code "404" then ret false else raise (ClientError code)).

Definition add_files (s3_url : string) : M Trace Response :=
  aws_access_key <- os_environ "MY_AWS_ACCESS_KEY_ID" ;;
  aws_secret_key <- os_environ "MY_AWS_SECRET_ACCESS_KEY" ;;
  db_name <- os_environ "POSTGRES_DB_NAME" ;;
  user <- os_environ "POSTGRES_USER" ;;
  password <- os_environ "POSTGRES_PASSWORD" ;;
  host <- os_environ "POSTGRES_HOST" ;;
  port <- os_environ "POSTGRES_PORT" ;;
  table_name <- os_environ "POSTGRES_TABLE_NAME" ;;
  embedding_provider <- os_environ "EMBEDDING_PROVIDER" ;;
  embedding_model_name <- os_environ "EMBEDDING_MODEL_NAME" ;;
  embedding_provider_api_key <- os_environ "EMBEDDING_PROVIDER_API_KEY" ;;
  chunking_strategy <- os_environ "CHUNKING_STRATEGY" ;;
  chunking_max_characters <- os_environ "CHUNKING_MAX_CHARACTERS" ;;
  let local_file_download_dir := "/tmp/" in
  n <- jobs_so_far ;;
  let job_name := "BatchJob_" +:+ uuid4 w n in
  job_queue <- os_environ "JOB_QUEUE" ;;
  job_definition <- os_environ "JOB_DEFINITION" ;;
  let request :=
    {| jobName := job_name;
       jobQueue := job_queue;
       jobDefinition := job_definition;
       environment :=
         [("AWS_S3_URL", s3_url);
          ("AWS_ACCESS_KEY_ID", aws_access_key);
          ("AWS_SECRET_ACCESS_KEY", aws_secret_key);
          ("POSTGRES_DB_NAME", db_name);
          ("POSTGRES_USER", user);
          ("POSTGRES_PASSWORD", password);
          ("POSTGRES_HOST", host);
          ("POSTGRES_PORT", port);
          ("POSTGRES_TABLE_NAME", table_name);
          ("EMBEDDING_PROVIDER", embedding_provider);
          ("EMBEDDING_MODEL_NAME", embedding_model_name);
          ("EMBEDDING_PROVIDER_API_KEY", embedding_provider_api_key);
          ("CHUNKING_STRATEGY", chunking_strategy);
          ("CHUNKING_MAX_CHARACTERS", chunking_max_characters);
          ("LOCAL_FILE_DOWNLOAD_DIR", local_file_download_dir);
          ("APP_SCRIPT", app_script proc)] |} in
  emit (SubmitJob request) ;;;
  jobId <- lift_outcome (submit_job w n request) ;;
  ret {| statusCode := 200;
         body := json_dumps ("Started Batch Job: " +:+ jobId) |}.

(** The key the handler works with: [urllib.parse.unquote], then
    [.replace('+', ' ').replace('%20', ' ')]. *)
Definition decode_key (document_key : string) : string :=
  let decoded_document_key := Str.unquote document_key in
  Str.replace "%20" " " (Str.replace "+" " " decoded_document_key).

Definition s3_url_of (bucket_name key : string) : string :=
  "s3://" +:+ bucket_name +:+ "/" +:+ key.

(** The body of [for item in response['Contents']]. *)
Fixpoint for_each_item (bucket_name : string) (contents : list S3Object) : M Trace unit :=
  match contents with
  | [] => ret tt
  | item :: rest =>
      let document_key := Key item in
      let s3_url := s3_url_of bucket_name document_key in
      (if Size item =? 0
       then print (LogSkippingFolder document_key)
       else (_ <- add_files s3_url ;; ret tt)) ;;;
      for_each_item bucket_name rest
  end.

Definition lambda_handler (event : LambdaEvent) : M Trace Response :=
  if decide (RequestType event = Some "Delete") then
    print LogStackDeleted ;;;
    ret {| statusCode := 200;
           body := json_dumps "Delete event - no action taken." |}
  else
    match Records event with
    | Some (record :: _) =>
        print LogS3Event ;;;
        let bucket_name := bucket_name record in
        let document_key := object_key record in
        let decoded_document_with_spaces := decode_key document_key in
        let s3_url := s3_url_of bucket_name decoded_document_with_spaces in
        found <- does_object_exist bucket_name decoded_document_with_spaces ;;
        (if found : bool then
           print (LogObjectExists decoded_document_with_spaces) ;;;
           db_name <- os_environ "POSTGRES_DB_NAME" ;;
           user <- os_environ "POSTGRES_USER" ;;
           password <- os_environ "POSTGRES_PASSWORD" ;;
           host <- os_environ "POSTGRES_HOST" ;;
           port <- os_environ "POSTGRES_PORT" ;;
           table_name <- os_environ "POSTGRES_TABLE_NAME" ;;
           try_except
             (delete_from_postgres db_name user password host port table_name
                (Str.basename decoded_document_with_spaces))
             (fun e => print (LogErrorDeleting e))
         else ret tt) ;;;
        add_files s3_url
    | _ =>
        print LogCustomResourceEvent ;;;
        bucket_name <- os_environ "S3_BUCKET_NAME" ;;
        let prefix := os_environ_get "S3_NOTIFICATION_PREFIX" "" in
        emit (ListObjectsV2 bucket_name prefix) ;;;
        response <- lift_outcome (list_objects_v2 w bucket_name prefix) ;;
        match response with
        | Some contents =>
            print (LogObjects contents) ;;;
            for_each_item bucket_name contents
        | None => print LogNoObjects
        end ;;;
        ret {| statusCode := 200;
               body := json_dumps "Processed existing items." |}
    end.

End Program.

(** The invocation of the handler in a process and a world: what it
    returns or raises, and its trace. *)
Definition invoke (proc : Process) (w : World) (event : LambdaEvent)
    : outcome Response * Trace :=
  lambda_handler proc w event [].

(** ** Vocabulary of the specification *)

(** The three cases of the dispatcher. *)
Definition teardown (event : LambdaEvent) : Prop :=
  RequestType event = Some "Delete".

Definition first_record (event : LambdaEvent) : option S3Record :=
  match Records event with
  | Some (record :: _) => Some record
  | _ => None
  end.

Definition storage_change (event : LambdaEvent) (record : S3Record) : Prop :=
  ~ teardown event /\ first_record event = Some record.

Definition bulk_listing (event : LambdaEvent) : Prop :=
  ~ teardown event /\ first_record event = None.

(** The existence probes of a trace: bucket and key of each. *)
Definition head_probes (tr : Trace) : list (string * string) :=
  omap (fun ev => match ev with HeadObject b k => Some (b, k) | _ => None end) tr.

(** The variables [add_files] reads with [os.environ[...]], in the order it
    reads them; the six [POSTGRES_*] ones are those the deletion needs. *)
Definition job_variables : list string :=
  ["MY_AWS_ACCESS_KEY_ID"; "MY_AWS_SECRET_ACCESS_KEY"; "POSTGRES_DB_NAME";
   "POSTGRES_USER"; "POSTGRES_PASSWORD"; "POSTGRES_HOST"; "POSTGRES_PORT";
   "POSTGRES_TABLE_NAME"; "EMBEDDING_PROVIDER"; "EMBEDDING_MODEL_NAME";
   "EMBEDDING_PROVIDER_API_KEY"; "CHUNKING_STRATEGY"; "CHUNKING_MAX_CHARACTERS";
   "JOB_QUEUE"; "JOB_DEFINITION"].

Definition postgres_variables : list string :=
  ["POSTGRES_DB_NAME"; "POSTGRES_USER"; "POSTGRES_PASSWORD"; "POSTGRES_HOST";
   "POSTGRES_PORT"; "POSTGRES_TABLE_NAME"].

(** The first variable of [vars] that is not set. *)
Fixpoint first_missing (proc : Process) (vars : list string) : option string :=
  match vars with
  | [] => None
  | k :: vars' =>
      match environ proc !! k with
      | Some _ => first_missing proc vars'
      | None => Some k
      end
  end.

(** Every variable the job assembly needs is set. *)
Definition configured (proc : Process) : Prop :=
  first_missing proc job_variables = None.

(** The request [add_files s3_url] assembles in a configured process when
    [n] jobs were submitted before. *)
Definition job_request (proc : Process) (w : World) (n : nat) (s3_url : string)
    : ProcessingJobRequest :=
  let var k := os_environ_get proc k "" in
  {| jobName := "BatchJob_" +:+ uuid4 w n;
     jobQueue := var "JOB_QUEUE";
     jobDefinition := var "JOB_DEFINITION";
     environment :=
       [("AWS_S3_URL", s3_url);
        ("AWS_ACCESS_KEY_ID", var "MY_AWS_ACCESS_KEY_ID");
        ("AWS_SECRET_ACCESS_KEY", var "MY_AWS_SECRET_ACCESS_KEY");
        ("POSTGRES_DB_NAME", var "POSTGRES_DB_NAME");
        ("POSTGRES_USER", var "POSTGRES_USER");
        ("POSTGRES_PASSWORD", var "POSTGRES_PASSWORD");
        ("POSTGRES_HOST", var "POSTGRES_HOST");
        ("POSTGRES_PORT", var "POSTGRES_PORT");
        ("POSTGRES_TABLE_NAME", var "POSTGRES_TABLE_NAME");
        ("EMBEDDING_PROVIDER", var "EMBEDDING_PROVIDER");
        ("EMBEDDING_MODEL_NAME", var "EMBEDDING_MODEL_NAME");
        ("EMBEDDING_PROVIDER_API_KEY", var "EMBEDDING_PROVIDER_API_KEY");
        ("CHUNKING_STRATEGY", var "CHUNKING_STRATEGY");
        ("CHUNKING_MAX_CHARACTERS", var "CHUNKING_MAX_CHARACTERS");
        ("LOCAL_FILE_DOWNLOAD_DIR", "/tmp/");
        ("APP_SCRIPT", app_script proc)] |}.

(** The response of [add_files] to the answer of the Batch service. *)
Definition job_response (answer : outcome string) : outcome Response :=
  match answer with
  | Return jobId =>
      Return {| statusCode := 200;
                body := json_dumps ("Started Batch Job: " +:+ jobId) |}
  | Raise e => Raise e
  end.

(** The request [delete_from_postgres] is called with by the handler. *)
Definition deletion_request (proc : Process) (filename : string) : DeletionRequest :=
  let var k := os_environ_get proc k "" in
  {| del_db_name := var "POSTGRES_DB_NAME";
     del_user := var "POSTGRES_USER";
     del_password := var "POSTGRES_PASSWORD";
     del_host := var "POSTGRES_HOST";
     del_port := var "POSTGRES_PORT";
     del_table_name := var "POSTGRES_TABLE_NAME";
     del_filename := filename |}.

(** Events that are no request to S3 or Batch and no call of the deletion
    executor. *)
Definition quiet (l : Trace) : Prop :=
  job_requests l = [] /\ deletion_requests l = [] /\ head_probes l = [].

(** The call of [delete_from_postgres] as the handler makes it:
    [try: delete_from_postgres(...) / except Exception as e: print(...)]. *)
Definition deletion_step (proc : Process) (w : World) (d : DeletionRequest)
    : M Trace unit :=
  try_except
    (delete_from_postgres w (del_db_name d) (del_user d) (del_password d)
       (del_host d) (del_port d) (del_table_name d) (del_filename d))
    (fun e => print (LogErrorDeleting e)).

(** The storage URIs of the listed objects of nonzero size, in listing order. *)
Fixpoint nonempty_urls (bucket : string) (contents : list S3Object) : list string :=
  match contents with
  | [] => []
  | item :: rest =>
      if Size item =? 0 then nonempty_urls bucket rest
      else s3_url_of bucket (Key item) :: nonempty_urls bucket rest
  end.

(** Submitting one job per URI in a configured process, the [n]-th job of
    the invocation first: the requests made and how it ends.  The first
    submission that fails ends it. *)
Fixpoint submissions (proc : Process) (w : World) (n : nat) (urls : list string)
    : outcome unit * list ProcessingJobRequest :=
  match urls with
  | [] => (Return tt, [])
  | url :: urls' =>
      let request := job_request proc w n url in
      match submit_job w n request with
      | Return _ =>
          let (r, l) := submissions proc w (S n) urls' in (r, request :: l)
      | Raise e => (Raise e, [request])
      end
  end.

(** The Batch service accepts every job. *)
Definition accepts_all (w : World) : Prop :=
  forall n request, exists jobId, submit_job w n request = Return jobId.

(** The response of the bulk-listing case. *)
Definition bulk_response : Response :=
  {| statusCode := 200; body := json_dumps "Processed existing items." |}.

(** The deletion step failed: an error was raised inside the executor and
    logged there (line 43), or an exception left the executor and was
    logged by the handler (line 87). *)
Definition deletion_failed (tr : Trace) : Prop :=
  exists e, In (Print (LogErrorWhileDeleting e)) tr \/
            In (Print (LogErrorDeleting e)) tr.

(** The same world with another database behind psycopg2. *)
Definition with_database (w : World) (db : Database) : World :=
  {| head_object := head_object w;
     list_objects_v2 := list_objects_v2 w;
     submit_job := submit_job w;
     uuid4 := uuid4 w;
     psycopg2 := db |}.

(** The objects of a listing response: none when [Contents] is absent. *)
Definition listed (contents : option (list S3Object)) : list S3Object :=
  match contents with
  | Some items => items
  | None => []
  end.

(** ** Further vocabulary *)

(** The SQL statements of a trace: text and parameters of each
    [cursor.execute]. *)
Definition statements (tr : Trace) : list (string * list string) :=
  omap (fun ev => match ev with Execute q ps => Some (q, ps) | _ => None end) tr.

(** The listings of a trace: bucket and prefix of each [list_objects_v2]. *)
Definition listings (tr : Trace) : list (string * string) :=
  omap (fun ev => match ev with ListObjectsV2 b p => Some (b, p) | _ => None end) tr.

(** The calls to psycopg2. *)
Definition is_database_call (ev : Event) : bool :=
  match ev with
  | Connect _ _ _ _ _ | OpenCursor | Execute _ _ | Commit | CloseCursor
  | CloseConnection => true
  | _ => false
  end.

Definition database_calls (tr : Trace) : Trace := List.filter is_database_call tr.

(** Events of the job submitter and of the loop. *)
Definition submission_event (ev : Event) : Prop :=
  (exists key, ev = Print (LogSkippingFolder key)) \/ (exists j, ev = SubmitJob j).


(** The text of the statement [delete_from_postgres] runs on a table. *)
Definition delete_query (table_name : string) : string :=
  "DELETE FROM " +:+ table_name +:+ " WHERE filename = %s".

(** The names of the environment of a job, in order, and for those that
    carry a variable of the process, the name of that variable. *)
Definition job_environment_names : list string :=
  ["AWS_S3_URL"; "AWS_ACCESS_KEY_ID"; "AWS_SECRET_ACCESS_KEY"; "POSTGRES_DB_NAME";
   "POSTGRES_USER"; "POSTGRES_PASSWORD"; "POSTGRES_HOST"; "POSTGRES_PORT";
   "POSTGRES_TABLE_NAME"; "EMBEDDING_PROVIDER"; "EMBEDDING_MODEL_NAME";
   "EMBEDDING_PROVIDER_API_KEY"; "CHUNKING_STRATEGY"; "CHUNKING_MAX_CHARACTERS";
   "LOCAL_FILE_DOWNLOAD_DIR"; "APP_SCRIPT"].

Definition passed_variables : list (string * string) :=
  [("AWS_ACCESS_KEY_ID", "MY_AWS_ACCESS_KEY_ID");
   ("AWS_SECRET_ACCESS_KEY", "MY_AWS_SECRET_ACCESS_KEY");
   ("POSTGRES_DB_NAME", "POSTGRES_DB_NAME");
   ("POSTGRES_USER", "POSTGRES_USER");
   ("POSTGRES_PASSWORD", "POSTGRES_PASSWORD");
   ("POSTGRES_HOST", "POSTGRES_HOST");
   ("POSTGRES_PORT", "POSTGRES_PORT");
   ("POSTGRES_TABLE_NAME", "POSTGRES_TABLE_NAME");
   ("EMBEDDING_PROVIDER", "EMBEDDING_PROVIDER");
   ("EMBEDDING_MODEL_NAME", "EMBEDDING_MODEL_NAME");
   ("EMBEDDING_PROVIDER_API_KEY", "EMBEDDING_PROVIDER_API_KEY");
   ("CHUNKING_STRATEGY", "CHUNKING_STRATEGY");
   ("CHUNKING_MAX_CHARACTERS", "CHUNKING_MAX_CHARACTERS")].

(** ** Example processes and worlds *)

Module Examples.

Definition full_environ : gmap string string :=
  list_to_map
    [("MY_AWS_ACCESS_KEY_ID", "AKIAEXAMPLE"); ("MY_AWS_SECRET_ACCESS_KEY", "secret");
     ("POSTGRES_DB_NAME", "vecs"); ("POSTGRES_USER", "postgres");
     ("POSTGRES_PASSWORD", "pw"); ("POSTGRES_HOST", "db.internal");
     ("POSTGRES_PORT", "5432"); ("POSTGRES_TABLE_NAME", "elements");
     ("EMBEDDING_PROVIDER", "openai"); ("EMBEDDING_MODEL_NAME", "small");
     ("EMBEDDING_PROVIDER_API_KEY", "sk"); ("CHUNKING_STRATEGY", "basic");
     ("CHUNKING_MAX_CHARACTERS", "1000"); ("JOB_QUEUE", "queue");
     ("JOB_DEFINITION", "definition"); ("S3_BUCKET_NAME", "docs");
     ("S3_NOTIFICATION_PREFIX", "in/")].

(** A process with every variable set, one with none, and one with the
    [POSTGRES_*] variables and the bucket only. *)
Definition deployed : Process :=
  {| environ := full_environ; app_script := "import sys" |}.

Definition bare : Process :=
  {| environ := ∅; app_script := "import sys" |}.

Definition half_deployed : Process :=
  {| environ :=
       list_to_map
         [("POSTGRES_DB_NAME", "vecs"); ("POSTGRES_USER", "postgres");
          ("POSTGRES_PASSWORD", "pw"); ("POSTGRES_HOST", "db.internal");
          ("POSTGRES_PORT", "5432"); ("POSTGRES_TABLE_NAME", "elements");
          ("S3_BUCKET_NAME", "docs")];
     app_script := "import sys" |}.

(** A database that works, one that refuses the connection, and one that
    connects but gives no cursor. *)
Definition db_up : Database :=
  {| db_connect := fun _ _ _ _ _ => Return tt;
     db_cursor := Return tt;
     db_execute := fun _ _ => Return tt;
     db_commit := Return tt;
     db_rowcount := 1;
     db_cursor_close := Return tt;
     db_connection_close := Return tt |}.

Definition db_down : Database :=
  {| db_connect := fun _ _ _ _ _ => Raise (ServiceError "connection refused");
     db_cursor := Return tt;
     db_execute := fun _ _ => Return tt;
     db_commit := Return tt;
     db_rowcount := 0;
     db_cursor_close := Return tt;
     db_connection_close := Return tt |}.

Definition db_no_cursor : Database :=
  {| db_connect := fun _ _ _ _ _ => Return tt;
     db_cursor := Raise (ServiceError "cursor");
     db_execute := fun _ _ => Return tt;
     db_commit := Return tt;
     db_rowcount := 0;
     db_cursor_close := Return tt;
     db_connection_close := Return tt |}.

(** The listing of the scenario of the specification, and one with two
    documents. *)
Definition listing : list S3Object :=
  [{| Key := "in/x.pdf"; Size := 10 |}; {| Key := "in/"; Size := 0 |}].

Definition two_documents : list S3Object :=
  [{| Key := "in/x.pdf"; Size := 10 |}; {| Key := "in/y.pdf"; Size := 20 |}].

Definition job_id (n : nat) : string :=
  match n with O => "job-0" | S O => "job-1" | _ => "job-n" end.

(** A world in which every probed object is there and every job is
    accepted; [head] and [batch] replace the answers of S3 and Batch. *)
Definition world (db : Database) (contents : option (list S3Object)) : World :=
  {| head_object := fun _ _ => Return tt;
     list_objects_v2 := fun _ _ => Return contents;
     submit_job := fun n _ => Return (job_id n);
     uuid4 := fun n => job_id n;
     psycopg2 := db |}.

Definition with_head (w : World) (answer : outcome unit) : World :=
  {| head_object := fun _ _ => answer;
     list_objects_v2 := list_objects_v2 w;
     submit_job := submit_job w;
     uuid4 := uuid4 w;
     psycopg2 := psycopg2 w |}.

Definition with_batch (w : World) (answer : nat -> outcome string) : World :=
  {| head_object := head_object w;
     list_objects_v2 := list_objects_v2 w;
     submit_job := fun n _ => answer n;
     uuid4 := uuid4 w;
     psycopg2 := psycopg2 w |}.

Definition notification (bucket key : string) : LambdaEvent :=
  {| RequestType := None;
     Records := Some [{| bucket_name := bucket; object_key := key |}] |}.

Definition custom_resource : LambdaEvent :=
  {| RequestType := Some "Create"; Records := None |}.

Definition stack_deletion : LambdaEvent :=
  {| RequestType := Some "Delete";
     Records := Some [{| bucket_name := "docs"; object_key := "x.pdf" |}] |}.

End Examples.

Module MoreExamples.

(** Identifiers that differ from call to call. *)
Fixpoint tally (n : nat) : string :=
  match n with
  | O => "a"
  | S n' => String "i" (tally n')
  end.

Definition fresh_world (db : Database) (contents : option (list S3Object)) : World :=
  {| head_object := fun _ _ => Return tt;
     list_objects_v2 := fun _ _ => Return contents;
     submit_job := fun n _ => Return (tally n);
     uuid4 := tally;
     psycopg2 := db |}.

(** A database whose cursor cannot be closed, and one that rejects the
    statement. *)
Definition db_stuck_cursor : Database :=
  {| db_connect := fun _ _ _ _ _ => Return tt;
     db_cursor := Return tt;
     db_execute := fun _ _ => Return tt;
     db_commit := Return tt;
     db_rowcount := 1;
     db_cursor_close := Raise (ServiceError "InterfaceError");
     db_connection_close := Return tt |}.

Definition db_rejects : Database :=
  {| db_connect := fun _ _ _ _ _ => Return tt;
     db_cursor := Return tt;
     db_execute := fun _ _ => Raise (ServiceError "UndefinedTable");
     db_commit := Return tt;
     db_rowcount := 0;
     db_cursor_close := Return tt;
     db_connection_close := Return tt |}.

(** A bucket that holds the one object [a+b.pdf]: the probe finds that
    key and reports 404 for every other; a listing returns it. *)
Definition plus_bucket : World :=
  {| head_object := fun _ key =>
       if String.eqb key "a+b.pdf" then Return tt else Raise (ClientError "404");
     list_objects_v2 := fun _ _ => Return (Some [{| Key := "a+b.pdf"; Size := 10 |}]);
     submit_job := fun n _ => Return (tally n);
     uuid4 := tally;
     psycopg2 := Examples.db_up |}.

(** A process in which only the bucket is set. *)
Definition bucket_only : Process :=
  {| environ := {["S3_BUCKET_NAME" := "docs"]}; app_script := "import sys" |}.

End MoreExamples.

(** * Properties *)

(** ** Strings *)

Example unquote_plus_sign : Str.unquote "a%2Bb.pdf" = "a+b.pdf".
Proof. reflexivity. Qed.

Example unquote_double : Str.unquote "a%2520b+c%zz%4" = "a%20b+c%zz%4".
Proof. reflexivity. Qed.

Example unquote_euro : Str.unquote "caf%C3%A9/%E2%82%AC" = "café/€".
Proof. reflexivity. Qed.

Example unquote_ill_formed :
  Str.unquote "%E2%82x%FF" =
  Str.replacement_character +:+ "x" +:+ Str.replacement_character.
Proof. reflexivity. Qed.

Example replace_twice :
  Str.replace "%20" " " (Str.replace "+" " " "a%20b+c%2%200") = "a b c%2 0".
Proof. reflexivity. Qed.

Example basename_ex : Str.basename "in/sub/x.pdf" = "x.pdf" /\ Str.basename "x" = "x"
  /\ Str.basename "in/" = "".
Proof. repeat split. Qed.

(** ** The job submitter *)

Lemma add_files_run proc w s3_url tr :
  add_files proc w s3_url tr =
  match first_missing proc job_variables with
  | Some k => (Raise (KeyError k), tr)
  | None =>
      let n := length (job_requests tr) in
      let request := job_request proc w n s3_url in
      (job_response (submit_job w n request), tr ++ [SubmitJob request])
  end.
Proof.
  unfold add_files, job_request, job_response, os_environ_get, os_environ,
    jobs_so_far, bind, ret, raise, get, emit, modify, lift_outcome. simpl.
  destruct (environ proc !! "MY_AWS_ACCESS_KEY_ID"); [|reflexivity].
  destruct (environ proc !! "MY_AWS_SECRET_ACCESS_KEY"); [|reflexivity].
  destruct (environ proc !! "POSTGRES_DB_NAME"); [|reflexivity].
  destruct (environ proc !! "POSTGRES_USER"); [|reflexivity].
  destruct (environ proc !! "POSTGRES_PASSWORD"); [|reflexivity].
  destruct (environ proc !! "POSTGRES_HOST"); [|reflexivity].
  destruct (environ proc !! "POSTGRES_PORT"); [|reflexivity].
  destruct (environ proc !! "POSTGRES_TABLE_NAME"); [|reflexivity].
  destruct (environ proc !! "EMBEDDING_PROVIDER"); [|reflexivity].
  destruct (environ proc !! "EMBEDDING_MODEL_NAME"); [|reflexivity].
  destruct (environ proc !! "EMBEDDING_PROVIDER_API_KEY"); [|reflexivity].
  destruct (environ proc !! "CHUNKING_STRATEGY"); [|reflexivity].
  destruct (environ proc !! "CHUNKING_MAX_CHARACTERS"); [|reflexivity].
  destruct (environ proc !! "JOB_QUEUE"); [|reflexivity].
  destruct (environ proc !! "JOB_DEFINITION"); [|reflexivity].
  unfold record_event, Trace_traced.
  destruct (submit_job w _ _); reflexivity.
Qed.

Lemma add_files_configured proc w s3_url tr :
  configured proc ->
  add_files proc w s3_url tr =
  (job_response (submit_job w (length (job_requests tr))
                   (job_request proc w (length (job_requests tr)) s3_url)),
   tr ++ [SubmitJob (job_request proc w (length (job_requests tr)) s3_url)]).
Proof. intros Hc. rewrite add_files_run. unfold configured in Hc. now rewrite Hc. Qed.

Lemma job_request_uri proc w n s3_url :
  job_uri (job_request proc w n s3_url) = Some s3_url.
Proof. reflexivity. Qed.

(** ** Projections of a trace *)

Lemma job_requests_app (l1 l2 : Trace) :
  job_requests (l1 ++ l2) = job_requests l1 ++ job_requests l2.
Proof. apply omap_app. Qed.

Lemma deletion_requests_app (l1 l2 : Trace) :
  deletion_requests (l1 ++ l2) = deletion_requests l1 ++ deletion_requests l2.
Proof. apply omap_app. Qed.

Lemma head_probes_app (l1 l2 : Trace) :
  head_probes (l1 ++ l2) = head_probes l1 ++ head_probes l2.
Proof. apply omap_app. Qed.

(** ** The deletion executor *)

Ltac unfold_comp :=
  unfold try_except, try_finally, in_frame, read_cursor, assign_connection,
    assign_cursor, print, emit, modify, get, lift_outcome, bind, ret, raise,
    record_event, Frame_traced, Trace_traced in *.

(** Whatever the database answers, the executor's trace is the call itself
    followed by database calls and log lines only. *)
Lemma delete_from_postgres_trace w db_name user password host port table_name
    filename tr :
  exists l,
    snd (delete_from_postgres w db_name user password host port table_name
           filename tr) =
    tr ++ Delete {| del_db_name := db_name; del_user := user;
                     del_password := password; del_host := host; del_port := port;
                     del_table_name := table_name; del_filename := filename |}
        :: l
    /\ quiet l.
Proof.
  unfold delete_from_postgres. unfold_comp. simpl.
  destruct (db_connect _ _ _ _ _ _) as [[]|e1]; simpl;
    [destruct (db_cursor _) as [[]|e2]; simpl;
      [destruct (db_execute _ _ _) as [[]|e3]; simpl;
        [destruct (db_commit _) as [[]|e4]; simpl|]|]|];
    try (destruct (db_cursor_close _) as [[]|e5]; simpl;
         [destruct (db_connection_close _) as [[]|e6]; simpl|]);
    rewrite <- ?app_assoc; simpl; eexists; (split; [reflexivity|]);
    repeat split.
Qed.

Lemma deletion_step_run proc w d tr :
  exists l,
    deletion_step proc w d tr = (Return tt, tr ++ Delete d :: l) /\ quiet l.
Proof.
  unfold deletion_step, try_except.
  destruct (delete_from_postgres_trace w (del_db_name d) (del_user d)
              (del_password d) (del_host d) (del_port d) (del_table_name d)
              (del_filename d) tr) as (l & Hl & Hq1 & Hq2 & Hq3).
  destruct (delete_from_postgres _ _ _ _ _ _ _ _ _) as [[[]|e] tr'];
    simpl in Hl; subst tr'; destruct d; simpl.
  - exists l. repeat split; assumption.
  - exists (l ++ [Print (LogErrorDeleting e)]). unfold_comp.
    rewrite <- app_assoc. simpl. split; [reflexivity|].
    unfold quiet. rewrite job_requests_app, deletion_requests_app, head_probes_app,
      Hq1, Hq2, Hq3. repeat split.
Qed.

(** ** The storage-change case *)

Lemma storage_change_records event record :
  storage_change event record ->
  RequestType event <> Some "Delete" /\
  exists rest, Records event = Some (record :: rest).
Proof.
  intros [Ht Hr]. split; [exact Ht|].
  unfold first_record in Hr. destruct (Records event) as [[|r rest]|]; try discriminate.
  injection Hr as ->. now exists rest.
Qed.

(** The handler on a change notification, case by case: the probe, the
    deletion when the object is there, then [add_files]. *)
Lemma storage_change_run proc w event record :
  storage_change event record ->
  let bucket := bucket_name record in
  let key := decode_key (object_key record) in
  let s3_url := s3_url_of bucket key in
  let tr0 := [Print LogS3Event; HeadObject bucket key] in
  invoke proc w event =
  match head_object w bucket key with
  | Return _ =>
      match first_missing proc postgres_variables with
      | Some k => (Raise (KeyError k), tr0 ++ [Print (LogObjectExists key)])
      | None =>
          add_files proc w s3_url
            (snd (deletion_step proc w
                    (deletion_request proc (Str.basename key))
                    (tr0 ++ [Print (LogObjectExists key)])))
      end
  | Raise (ClientError code) =>
      if String.eqb code "404" then add_files proc w s3_url tr0
      else (Raise (ClientError code), tr0)
  | Raise e => (Raise e, tr0)
  end.
Proof.
  intros Hs. apply storage_change_records in Hs as [Ht [rest Hr]].
  unfold invoke, lambda_handler. rewrite Hr.
  destruct (decide (RequestType event = Some "Delete")) as [|_]; [contradiction|].
  cbv zeta. unfold does_object_exist, try_except_ClientError, deletion_request,
    deletion_step, os_environ_get, os_environ, try_except.
  unfold_comp. simpl.
  destruct (head_object w (bucket_name record) (decode_key (object_key record)))
    as [[]|e]; simpl.
  - destruct (environ proc !! "POSTGRES_DB_NAME"); [|reflexivity].
    destruct (environ proc !! "POSTGRES_USER"); [|reflexivity].
    destruct (environ proc !! "POSTGRES_PASSWORD"); [|reflexivity].
    destruct (environ proc !! "POSTGRES_HOST"); [|reflexivity].
    destruct (environ proc !! "POSTGRES_PORT"); [|reflexivity].
    destruct (environ proc !! "POSTGRES_TABLE_NAME"); [|reflexivity].
    simpl.
    destruct (delete_from_postgres _ _ _ _ _ _ _ _ _) as [[[]|e] tr']; reflexivity.
  - destruct e as [k|n|code|d]; try reflexivity.
    destruct (String.eqb code "404"); reflexivity.
Qed.

(** ** The loop over a listing *)


Lemma submissions_accepted proc w urls : accepts_all w -> forall n,
  fst (submissions proc w n urls) = Return tt /\
  map job_uri (snd (submissions proc w n urls)) = map Some urls.
Proof.
  intros Ha. induction urls as [|url urls IH]; intros n; simpl.
  - now split.
  - destruct (Ha n (job_request proc w n url)) as [jobId ->].
    specialize (IH (S n)). destruct (submissions proc w (S n) urls) as [r l].
    simpl in *. destruct IH as [-> ->]. now split.
Qed.

(** The loop over the listing in a configured process. *)
Lemma for_each_item_configured proc w bucket contents : configured proc ->
  forall tr, exists l,
    for_each_item proc w bucket contents tr =
      (fst (submissions proc w (length (job_requests tr))
              (nonempty_urls bucket contents)), tr ++ l)
    /\ job_requests l =
         snd (submissions proc w (length (job_requests tr))
                (nonempty_urls bucket contents))
    /\ deletion_requests l = [] /\ head_probes l = [].
Proof.
  intros Hc. induction contents as [|item rest IH]; intros tr; simpl.
  - exists []. rewrite app_nil_r. repeat split.
  - unfold bind at 1. destruct (Size item =? 0).
    + unfold print, emit, modify, record_event, Trace_traced.
      destruct (IH (tr ++ [Print (LogSkippingFolder (Key item))]))
        as (l & Hrun & Hj & Hd & Hh).
      rewrite job_requests_app in Hrun, Hj. simpl in Hrun, Hj.
      rewrite app_nil_r in Hrun, Hj.
      exists (Print (LogSkippingFolder (Key item)) :: l).
      rewrite Hrun, <- app_assoc. simpl. repeat split; assumption.
    + unfold bind at 1. rewrite add_files_configured by assumption.
      simpl. destruct (submit_job w _ _) as [jobId|e]; simpl.
      * unfold ret.
        destruct (IH (tr ++ [SubmitJob (job_request proc w (length (job_requests tr))
                                         (s3_url_of bucket (Key item)))]))
          as (l & Hrun & Hj & Hd & Hh).
        rewrite job_requests_app in Hrun, Hj. simpl in Hrun, Hj.
        rewrite length_app in Hrun, Hj. simpl in Hrun, Hj.
        replace (length (job_requests tr) + 1)%nat with (S (length (job_requests tr)))
          in Hrun, Hj by lia.
        eexists (SubmitJob _ :: l). rewrite Hrun, <- app_assoc. simpl.
        destruct (submissions proc w (S (length (job_requests tr)))
                    (nonempty_urls bucket rest)) as [r l'].
        simpl in *. rewrite Hj. repeat split; assumption.
      * eexists [SubmitJob _]. repeat split.
Qed.

(** The loop when a variable of the job assembly is missing: the first
    object of nonzero size ends it, and no job is submitted. *)
Lemma for_each_item_unconfigured proc w bucket contents k :
  first_missing proc job_variables = Some k ->
  forall tr, exists l,
    for_each_item proc w bucket contents tr =
      (match nonempty_urls bucket contents with
       | [] => Return tt
       | _ :: _ => Raise (KeyError k)
       end, tr ++ l)
    /\ quiet l.
Proof.
  intros Hk. induction contents as [|item rest IH]; intros tr; simpl.
  - exists []. rewrite app_nil_r. repeat split.
  - unfold bind at 1. destruct (Size item =? 0).
    + unfold print, emit, modify, record_event, Trace_traced.
      destruct (IH (tr ++ [Print (LogSkippingFolder (Key item))]))
        as (l & Hrun & Hj & Hd & Hh).
      exists (Print (LogSkippingFolder (Key item)) :: l).
      rewrite Hrun, <- app_assoc. simpl. repeat split; assumption.
    + unfold bind at 1. rewrite add_files_run, Hk.
      exists []. rewrite app_nil_r. repeat split.
Qed.

(** The handler on an event without records, case by case: the bucket
    name, the listing, then the loop. *)
Lemma bulk_listing_run proc w event :
  bulk_listing event ->
  invoke proc w event =
  match environ proc !! "S3_BUCKET_NAME" with
  | None => (Raise (KeyError "S3_BUCKET_NAME"), [Print LogCustomResourceEvent])
  | Some bucket =>
      let prefix := os_environ_get proc "S3_NOTIFICATION_PREFIX" "" in
      let tr0 := [Print LogCustomResourceEvent; ListObjectsV2 bucket prefix] in
      match list_objects_v2 w bucket prefix with
      | Raise e => (Raise e, tr0)
      | Return None => (Return bulk_response, tr0 ++ [Print LogNoObjects])
      | Return (Some contents) =>
          match for_each_item proc w bucket contents
                  (tr0 ++ [Print (LogObjects contents)]) with
          | (Return _, tr) => (Return bulk_response, tr)
          | (Raise e, tr) => (Raise e, tr)
          end
      end
  end.
Proof.
  intros [Ht Hr]. unfold invoke, lambda_handler.
  destruct (decide (RequestType event = Some "Delete")) as [|_]; [contradiction|].
  assert (Hbulk : forall (A : Type) (f : S3Record -> list S3Record -> A) (g : A),
             match Records event with Some (r :: l) => f r l | _ => g end = g).
  { intros A f g. unfold first_record in Hr.
    destruct (Records event) as [[|r l]|]; try reflexivity. discriminate. }
  rewrite Hbulk. unfold os_environ, bulk_response. unfold_comp. simpl.
  destruct (environ proc !! "S3_BUCKET_NAME") as [bucket|]; [|reflexivity].
  simpl. destruct (list_objects_v2 w bucket _) as [[contents|]|e]; simpl;
    reflexivity.
Qed.

(** ** Configuration *)

Lemma deployed_configured : configured Examples.deployed.
Proof. vm_compute. reflexivity. Qed.

Lemma world_accepts_all db contents : accepts_all (Examples.world db contents).
Proof. intros n request. now exists (Examples.job_id n). Qed.

Lemma configured_postgres proc :
  configured proc -> first_missing proc postgres_variables = None.
Proof.
  unfold configured. simpl.
  destruct (environ proc !! "MY_AWS_ACCESS_KEY_ID"); [|discriminate].
  destruct (environ proc !! "MY_AWS_SECRET_ACCESS_KEY"); [|discriminate].
  destruct (environ proc !! "POSTGRES_DB_NAME"); [|discriminate].
  destruct (environ proc !! "POSTGRES_USER"); [|discriminate].
  destruct (environ proc !! "POSTGRES_PASSWORD"); [|discriminate].
  destruct (environ proc !! "POSTGRES_HOST"); [|discriminate].
  destruct (environ proc !! "POSTGRES_PORT"); [|discriminate].
  destruct (environ proc !! "POSTGRES_TABLE_NAME"); [|discriminate].
  reflexivity.
Qed.

(** The trace of [add_files]: nothing, or one submission for the URI. *)
Lemma add_files_trace proc w s3_url tr :
  exists l,
    snd (add_files proc w s3_url tr) = tr ++ l /\
    deletion_requests l = [] /\ head_probes l = [] /\
    (l = [] \/ l = [SubmitJob (job_request proc w (length (job_requests tr)) s3_url)]).
Proof.
  rewrite add_files_run. destruct (first_missing proc job_variables).
  - exists []. rewrite app_nil_r. repeat split. now left.
  - eexists [SubmitJob _]. repeat split. now right.
Qed.

(** The run of a change notification for an object that is there, in a
    process with the [POSTGRES_*] variables: probe, deletion step,
    [add_files]. *)
Lemma storage_change_found proc w event record :
  storage_change event record ->
  head_object w (bucket_name record) (decode_key (object_key record)) = Return tt ->
  first_missing proc postgres_variables = None ->
  let bucket := bucket_name record in
  let key := decode_key (object_key record) in
  exists l,
    quiet l /\
    invoke proc w event =
      add_files proc w (s3_url_of bucket key)
        ([Print LogS3Event; HeadObject bucket key; Print (LogObjectExists key);
          Delete (deletion_request proc (Str.basename key))] ++ l).
Proof.
  intros Hs Hh Hp bucket key. rewrite (storage_change_run proc w event record Hs).
  fold bucket key. unfold bucket at 1, key at 1. rewrite Hh, Hp.
  destruct (deletion_step_run proc w (deletion_request proc (Str.basename key))
              ([Print LogS3Event; HeadObject bucket key] ++
               [Print (LogObjectExists key)])) as (l & -> & Hq).
  exists l. split; [exact Hq|]. reflexivity.
Qed.

(** ** Teardown, probe and change notifications *)

(** C6.  A teardown event (its request type is [Delete]) makes the handler
    return success at once: its only effect is one log line, so it issues
    no DeletionRequest and no ProcessingJobRequest, whatever the records,
    the configuration and the services are. *)
Theorem teardown_issues_nothing proc w event :
  teardown event ->
  invoke proc w event =
    (Return {| statusCode := 200;
               body := json_dumps "Delete event - no action taken." |},
     [Print LogStackDeleted])
  /\ deletion_requests (snd (invoke proc w event)) = []
  /\ job_requests (snd (invoke proc w event)) = []
  /\ head_probes (snd (invoke proc w event)) = [].
Proof.
  intros Ht. unfold invoke, lambda_handler.
  destruct (decide (RequestType event = Some "Delete")) as [_|Hn];
    [|contradiction].
  repeat split.
Qed.

Lemma teardown_issues_nothing_witness :
  teardown Examples.stack_deletion /\
  fst (invoke Examples.deployed (Examples.world Examples.db_up None)
         Examples.stack_deletion) =
    Return {| statusCode := 200;
              body := json_dumps "Delete event - no action taken." |} /\
  job_requests (snd (invoke Examples.deployed (Examples.world Examples.db_up None)
                       Examples.stack_deletion)) = [].
Proof.
  assert (H : teardown Examples.stack_deletion) by reflexivity.
  split; [exact H|].
  destruct (teardown_issues_nothing Examples.deployed
              (Examples.world Examples.db_up None) Examples.stack_deletion H)
    as (Hrun & _ & Hjobs & _).
  split; [now rewrite Hrun | exact Hjobs].
Defined.

(** C7.  On a change notification, when the existence probe reports
    not-found (a [ClientError] with code 404) the handler performs no
    deletion and goes on with the job submission: the rest of the
    invocation is [add_files] for the storage URI.  When the probe fails
    in any other way the failure is what the invocation raises, and
    neither a deletion nor a job was issued. *)
Theorem probe_not_found_or_failed proc w event record :
  storage_change event record ->
  let bucket := bucket_name record in
  let key := decode_key (object_key record) in
  let tr0 := [Print LogS3Event; HeadObject bucket key] in
  (head_object w bucket key = Raise (ClientError "404") ->
     invoke proc w event = add_files proc w (s3_url_of bucket key) tr0 /\
     deletion_requests (snd (invoke proc w event)) = [] /\
     (configured proc ->
      job_requests (snd (invoke proc w event)) =
        [job_request proc w 0 (s3_url_of bucket key)]))
  /\
  (forall e, head_object w bucket key = Raise e -> e <> ClientError "404" ->
     invoke proc w event = (Raise e, tr0) /\
     deletion_requests (snd (invoke proc w event)) = [] /\
     job_requests (snd (invoke proc w event)) = []).
Proof.
  intros Hs bucket key tr0. pose proof (storage_change_run proc w event record Hs) as Hrun.
  cbv zeta in Hrun. fold bucket key in Hrun. split.
  - intros Hh. rewrite Hh in Hrun. simpl in Hrun. split; [exact Hrun|]. split.
    + rewrite Hrun.
      destruct (add_files_trace proc w (s3_url_of bucket key) tr0)
        as (l & Hl & Hd & _). unfold tr0 in Hl.
      rewrite Hl, deletion_requests_app, Hd. reflexivity.
    + intros Hc. rewrite Hrun, add_files_configured by assumption. reflexivity.
  - intros e Hh Hne. rewrite Hh in Hrun.
    assert (Hr : invoke proc w event = (Raise e, tr0)).
    { rewrite Hrun. destruct e as [k|n|code|d]; try reflexivity.
      destruct (String.eqb_spec code "404") as [Heq|_]; [|reflexivity].
      subst code. contradiction. }
    rewrite Hr. repeat split.
Qed.

Lemma probe_not_found_or_failed_witness :
  (let w := Examples.with_head (Examples.world Examples.db_up None)
              (Raise (ClientError "404")) in
   deletion_requests
     (snd (invoke Examples.deployed w (Examples.notification "docs" "new+file.pdf")))
     = [] /\
   job_requests
     (snd (invoke Examples.deployed w (Examples.notification "docs" "new+file.pdf")))
     = [job_request Examples.deployed w 0 "s3://docs/new file.pdf"])
  /\
  (let w := Examples.with_head (Examples.world Examples.db_up None)
              (Raise (ClientError "403")) in
   invoke Examples.deployed w (Examples.notification "docs" "new+file.pdf") =
     (Raise (ClientError "403"),
      [Print LogS3Event; HeadObject "docs" "new file.pdf"])).
Proof.
  assert (Hs : storage_change (Examples.notification "docs" "new+file.pdf")
                 {| bucket_name := "docs"; object_key := "new+file.pdf" |}).
  { split; [discriminate | reflexivity]. }
  split.
  - intros w.
    destruct (probe_not_found_or_failed Examples.deployed w _ _ Hs) as [H _].
    destruct (H eq_refl) as (_ & Hd & Hj).
    split; [exact Hd | exact (Hj deployed_configured)].
  - intros w.
    destruct (probe_not_found_or_failed Examples.deployed w _ _ Hs) as [_ H].
    destruct (H (ClientError "403") eq_refl) as (Hr & _); [discriminate|].
    exact Hr.
Defined.

(** The complete run of a change notification for an object that is
    there, in a configured process. *)
Lemma storage_change_found_configured proc w event record :
  storage_change event record ->
  head_object w (bucket_name record) (decode_key (object_key record)) = Return tt ->
  configured proc ->
  let bucket := bucket_name record in
  let key := decode_key (object_key record) in
  let request := job_request proc w 0 (s3_url_of bucket key) in
  exists l,
    quiet l /\
    invoke proc w event =
      (job_response (submit_job w 0 request),
       [Print LogS3Event; HeadObject bucket key; Print (LogObjectExists key);
        Delete (deletion_request proc (Str.basename key))] ++ l ++
       [SubmitJob request]).
Proof.
  intros Hs Hh Hc bucket key request.
  destruct (storage_change_found proc w event record Hs Hh (configured_postgres _ Hc))
    as (l & Hq & Hrun).
  exists l. split; [exact Hq|]. rewrite Hrun, add_files_configured by assumption.
  destruct Hq as (Hj & _ & _).
  rewrite job_requests_app, Hj. simpl. reflexivity.
Qed.

(** The complete run of a change notification for an object that is not
    there, in a configured process. *)
Lemma storage_change_absent_configured proc w event record :
  storage_change event record ->
  head_object w (bucket_name record) (decode_key (object_key record)) =
    Raise (ClientError "404") ->
  configured proc ->
  let bucket := bucket_name record in
  let key := decode_key (object_key record) in
  let request := job_request proc w 0 (s3_url_of bucket key) in
  invoke proc w event =
    (job_response (submit_job w 0 request),
     [Print LogS3Event; HeadObject bucket key; SubmitJob request]).
Proof.
  intros Hs Hh Hc bucket key request.
  rewrite (storage_change_run proc w event record Hs). fold bucket key.
  unfold bucket at 1, key at 1. rewrite Hh. simpl.
  rewrite add_files_configured by assumption. reflexivity.
Qed.

Lemma quiet_frame (pre l post : Trace) :
  quiet l ->
  job_requests (pre ++ l ++ post) = job_requests pre ++ job_requests post /\
  deletion_requests (pre ++ l ++ post) = deletion_requests pre ++ deletion_requests post /\
  head_probes (pre ++ l ++ post) = head_probes pre ++ head_probes post.
Proof.
  intros (Hj & Hd & Hh).
  rewrite !job_requests_app, !deletion_requests_app, !head_probes_app, Hj, Hd, Hh.
  repeat split.
Qed.

(** What such a run issues. *)
Lemma storage_change_found_requests proc w event record :
  storage_change event record ->
  head_object w (bucket_name record) (decode_key (object_key record)) = Return tt ->
  configured proc ->
  let bucket := bucket_name record in
  let key := decode_key (object_key record) in
  let request := job_request proc w 0 (s3_url_of bucket key) in
  fst (invoke proc w event) = job_response (submit_job w 0 request) /\
  job_requests (snd (invoke proc w event)) = [request] /\
  deletion_requests (snd (invoke proc w event)) =
    [deletion_request proc (Str.basename key)] /\
  head_probes (snd (invoke proc w event)) = [(bucket, key)].
Proof.
  intros Hs Hh Hc bucket key request.
  destruct (storage_change_found_configured proc w event record Hs Hh Hc)
    as (l & Hq & Hrun).
  rewrite Hrun. cbn [fst snd].
  destruct (quiet_frame
              [Print LogS3Event; HeadObject (bucket_name record)
                 (decode_key (object_key record));
               Print (LogObjectExists (decode_key (object_key record)));
               Delete (deletion_request proc
                         (Str.basename (decode_key (object_key record))))] l
              [SubmitJob (job_request proc w 0
                            (s3_url_of (bucket_name record)
                               (decode_key (object_key record))))] Hq)
    as (Hj & Hd & Hp).
  rewrite Hj, Hd, Hp. repeat split.
Qed.

(** C1, as amended.  In a process where every variable read by the job
    assembly is set, a change notification whose decoded key is in the
    bucket makes the handler issue exactly one DeletionRequest, with the
    basename of the decoded key as filename; one whose key is not there
    issues none; in both cases exactly one ProcessingJobRequest is issued,
    for the storage URI of the object. *)
Theorem change_notification_requests proc w event record :
  storage_change event record ->
  configured proc ->
  let bucket := bucket_name record in
  let key := decode_key (object_key record) in
  let tr := snd (invoke proc w event) in
  (head_object w bucket key = Return tt ->
     exists d, deletion_requests tr = [d] /\
               d = deletion_request proc (Str.basename key) /\
               del_filename d = Str.basename key)
  /\ (head_object w bucket key = Raise (ClientError "404") ->
     deletion_requests tr = [])
  /\ (head_object w bucket key = Return tt \/
      head_object w bucket key = Raise (ClientError "404") ->
     exists j, job_requests tr = [j] /\
               j = job_request proc w 0 (s3_url_of bucket key) /\
               job_uri j = Some (s3_url_of bucket key)).
Proof.
  intros Hs Hc bucket key tr.
  assert (Hfound : head_object w bucket key = Return tt ->
            deletion_requests tr = [deletion_request proc (Str.basename key)] /\
            job_requests tr = [job_request proc w 0 (s3_url_of bucket key)]).
  { intros Hh.
    destruct (storage_change_found_requests proc w event record Hs Hh Hc)
      as (_ & Hj & Hd & _).
    split; assumption. }
  assert (Habsent : head_object w bucket key = Raise (ClientError "404") ->
            deletion_requests tr = [] /\
            job_requests tr = [job_request proc w 0 (s3_url_of bucket key)]).
  { intros Hh.
    unfold tr.
    rewrite (storage_change_absent_configured proc w event record Hs Hh Hc).
    split; reflexivity. }
  split; [|split].
  - intros Hh. destruct (Hfound Hh) as [Hd _]. eexists. split; [exact Hd|].
    split; reflexivity.
  - intros Hh. apply (Habsent Hh).
  - intros [Hh|Hh]; eexists; (split; [apply Hfound, Hh || apply Habsent, Hh|]);
      split; reflexivity.
Qed.

Lemma change_notification_requests_witness :
  let event := Examples.notification "docs" "reports/q1+2024.pdf" in
  let there := Examples.world Examples.db_down None in
  let absent := Examples.with_head there (Raise (ClientError "404")) in
  map del_filename (deletion_requests (snd (invoke Examples.deployed there event)))
    = ["q1 2024.pdf"] /\
  deletion_requests (snd (invoke Examples.deployed absent event)) = [] /\
  map job_uri (job_requests (snd (invoke Examples.deployed there event)))
    = [Some "s3://docs/reports/q1 2024.pdf"] /\
  map job_uri (job_requests (snd (invoke Examples.deployed absent event)))
    = [Some "s3://docs/reports/q1 2024.pdf"].
Proof.
  intros event there absent.
  assert (Hs : storage_change event
                 {| bucket_name := "docs"; object_key := "reports/q1+2024.pdf" |}).
  { split; [discriminate | reflexivity]. }
  destruct (change_notification_requests Examples.deployed there event _ Hs
              deployed_configured) as (Hd & _ & Hj).
  destruct (change_notification_requests Examples.deployed absent event _ Hs
              deployed_configured) as (_ & Hd' & Hj').
  destruct (Hd eq_refl) as (d & -> & _ & Hf).
  destruct (Hj (or_introl eq_refl)) as (j & -> & _ & Hu).
  destruct (Hj' (or_intror eq_refl)) as (j' & -> & _ & Hu').
  simpl map. rewrite Hf, Hu, Hu', (Hd' eq_refl).
  repeat split.
Defined.

(** C1 as stated fails in a process without configuration: the object is
    there, the handler stops at the first [os.environ[...]] of the deletion
    branch, and neither a DeletionRequest nor a ProcessingJobRequest is
    issued. *)
Lemma change_notification_unconfigured :
  let event := Examples.notification "docs" "x.pdf" in
  let w := Examples.world Examples.db_up None in
  storage_change event {| bucket_name := "docs"; object_key := "x.pdf" |} /\
  head_object w "docs" (decode_key "x.pdf") = Return tt /\
  invoke Examples.bare w event =
    (Raise (KeyError "POSTGRES_DB_NAME"),
     [Print LogS3Event; HeadObject "docs" "x.pdf"; Print (LogObjectExists "x.pdf")]) /\
  deletion_requests (snd (invoke Examples.bare w event)) = [] /\
  job_requests (snd (invoke Examples.bare w event)) = [].
Proof.
  split; [split; [discriminate | reflexivity]|].
  repeat split; vm_compute; reflexivity.
Qed.

(** ** The decoded key *)

Lemma contains_cons pat c t :
  Str.contains pat (String c t) = Str.startswith pat (String c t) || Str.contains pat t.
Proof. reflexivity. Qed.

Lemma replace_plus_free s : Str.contains "+" (Str.replace "+" " " s) = false.
Proof.
  unfold Str.replace. induction s as [|c t IH]; [reflexivity|].
  cbn [Str.replace_from Str.startswith String.length Nat.pred].
  destruct ("+" =? c)%char eqn:E; cbn [andb].
  - change (" " +:+ Str.replace_from "+" " " 0 t)
      with (String " " (Str.replace_from "+" " " 0 t)).
    rewrite contains_cons, IH. reflexivity.
  - rewrite contains_cons, IH. cbn [Str.startswith]. rewrite E. reflexivity.
Qed.

Lemma replace_from_keeps_plus_free s : forall k,
  Str.contains "+" s = false -> Str.contains "+" (Str.replace_from "%20" " " k s) = false.
Proof.
  induction s as [|c t IH]; intros k H; [reflexivity|].
  rewrite contains_cons in H. apply orb_false_iff in H as [Hc Ht].
  destruct k as [|k]; cbn [Str.replace_from].
  - destruct (Str.startswith "%20" (String c t)).
    + change (" " +:+ ?r) with (String " " r).
      rewrite contains_cons, (IH _ Ht). reflexivity.
    + rewrite contains_cons, (IH 0%nat Ht).
      cbn [Str.startswith] in Hc |- *. rewrite Hc. reflexivity.
  - apply IH, Ht.
Qed.

Lemma replace_from_head t :
  Str.startswith "20" (Str.replace_from "%20" " " 0 t) = true -> Str.startswith "20" t = true.
Proof.
  destruct t as [|a t]; [discriminate|]. cbn [Str.replace_from].
  destruct (Str.startswith "%20" (String a t)); [discriminate|].
  cbn [Str.startswith]. intros H. apply andb_true_iff in H as [Ha H]. rewrite Ha.
  destruct t as [|b t]; [discriminate|]. cbn [Str.replace_from] in H.
  destruct (Str.startswith "%20" (String b t)); [discriminate|].
  cbn [Str.startswith] in H. apply andb_true_iff in H as [Hb _]. rewrite Hb.
  reflexivity.
Qed.

Lemma replace_from_free s : forall k,
  Str.contains "%20" (Str.replace_from "%20" " " k s) = false.
Proof.
  induction s as [|c t IH]; intros k; [reflexivity|].
  destruct k as [|k]; cbn [Str.replace_from].
  - destruct (Str.startswith "%20" (String c t)) eqn:E.
    + change (" " +:+ ?r) with (String " " r).
      rewrite contains_cons, IH. reflexivity.
    + rewrite contains_cons, IH, orb_false_r.
      change (Str.startswith "%20" (String c ?r))
        with (("%" =? c)%char && Str.startswith "20" r) in E |- *.
      destruct ("%" =? c)%char; [|reflexivity]. cbn [andb] in E |- *.
      destruct (Str.startswith "20" (Str.replace_from "%20" " " 0 t)) eqn:E2; [|reflexivity].
      apply replace_from_head in E2. congruence.
  - apply IH.
Qed.

Lemma decode_key_no_plus raw : Str.contains "+" (decode_key raw) = false.
Proof. apply replace_from_keeps_plus_free, replace_plus_free. Qed.

Lemma decode_key_no_percent20 raw : Str.contains "%20" (decode_key raw) = false.
Proof. apply replace_from_free. Qed.

(** What a change notification issues, whatever the configuration and the
    services answer: one probe, at most one deletion, at most one job. *)
Lemma storage_change_trace proc w event record :
  storage_change event record ->
  let bucket := bucket_name record in
  let key := decode_key (object_key record) in
  let tr := snd (invoke proc w event) in
  head_probes tr = [(bucket, key)] /\
  (deletion_requests tr = [] \/
   deletion_requests tr = [deletion_request proc (Str.basename key)]) /\
  (job_requests tr = [] \/
   job_requests tr = [job_request proc w 0 (s3_url_of bucket key)]).
Proof.
  intros Hs bucket key tr. unfold tr.
  rewrite (storage_change_run proc w event record Hs). fold bucket key.
  assert (Hnone : forall e : exn,
            let tr0 := snd (Raise e : outcome Response,
                            [Print LogS3Event; HeadObject bucket key]) in
            head_probes tr0 = [(bucket, key)] /\
            (deletion_requests tr0 = [] \/
             deletion_requests tr0 = [deletion_request proc (Str.basename key)]) /\
            (job_requests tr0 = [] \/
             job_requests tr0 = [job_request proc w 0 (s3_url_of bucket key)])).
  { intros e. simpl. split; [reflexivity|]. split; now left. }
  assert (Hadd : forall pre d,
            head_probes pre = [(bucket, key)] -> deletion_requests pre = d ->
            job_requests pre = [] ->
            let tr1 := snd (add_files proc w (s3_url_of bucket key) pre) in
            head_probes tr1 = [(bucket, key)] /\ deletion_requests tr1 = d /\
            (job_requests tr1 = [] \/
             job_requests tr1 = [job_request proc w 0 (s3_url_of bucket key)])).
  { intros pre d Hp Hd Hj tr1. unfold tr1.
    destruct (add_files_trace proc w (s3_url_of bucket key) pre)
      as (l & -> & Hld & Hlp & Hl).
    rewrite Hj in Hl. simpl in Hl.
    rewrite head_probes_app, deletion_requests_app, job_requests_app, Hlp, Hld, Hp,
      Hd, Hj, !app_nil_r.
    split; [reflexivity|]. split; [reflexivity|].
    destruct Hl as [->| ->]; [now left | now right]. }
  destruct (head_object w bucket key) as [[]|e].
  - destruct (first_missing proc postgres_variables).
    + simpl. split; [reflexivity|]. split; now left.
    + destruct (deletion_step_run proc w (deletion_request proc (Str.basename key))
                  ([Print LogS3Event; HeadObject bucket key] ++
                   [Print (LogObjectExists key)])) as (l & -> & Hj & Hd & Hp).
      cbn [snd].
      destruct (Hadd (([Print LogS3Event; HeadObject bucket key] ++
                       [Print (LogObjectExists key)]) ++
                      Delete (deletion_request proc (Str.basename key)) :: l)
                  [deletion_request proc (Str.basename key)])
        as (H1 & H2 & H3).
      * rewrite head_probes_app. simpl. now rewrite Hp.
      * rewrite deletion_requests_app. simpl. now rewrite Hd.
      * rewrite job_requests_app. simpl. exact Hj.
      * split; [exact H1|]. split; [now right | exact H3].
  - destruct e as [k|n|code|d]; try apply Hnone.
    destruct (String.eqb code "404"); [|apply Hnone].
    destruct (Hadd [Print LogS3Event; HeadObject bucket key] [])
      as (H1 & H2 & H3); try reflexivity.
    split; [exact H1|]. split; [now left | exact H3].
Qed.

(** C2.  On a change notification the handler works with one key: the raw
    key percent-decoded first, then with every [+] and every [%20] replaced
    by a space.  The existence probe is made for that key, the filename of
    a deletion is its basename and the storage URI of the job is built from
    it.  No [+] and no [%20] is left in it. *)
Theorem decoded_key_used_throughout proc w event record :
  storage_change event record ->
  let bucket := bucket_name record in
  let key :=
    Str.replace "%20" " " (Str.replace "+" " " (Str.unquote (object_key record))) in
  let tr := snd (invoke proc w event) in
  head_probes tr = [(bucket, key)] /\
  (forall d, In d (deletion_requests tr) -> del_filename d = Str.basename key) /\
  (forall j, In j (job_requests tr) ->
     job_uri j = Some ("s3://" +:+ bucket +:+ "/" +:+ key)) /\
  Str.contains "+" key = false /\
  Str.contains "%20" key = false /\
  (configured proc -> head_object w bucket key = Return tt ->
   deletion_requests tr = [deletion_request proc (Str.basename key)] /\
   job_requests tr = [job_request proc w 0 ("s3://" +:+ bucket +:+ "/" +:+ key)]).
Proof.
  intros Hs bucket key tr.
  destruct (storage_change_trace proc w event record Hs) as (Hp & Hd & Hj).
  fold bucket in Hp, Hd, Hj. change (decode_key (object_key record)) with key in *.
  fold tr in Hp, Hd, Hj.
  split; [exact Hp|]. split; [|split; [|split; [|split]]].
  - intros d Hin. destruct Hd as [Hd|Hd]; rewrite Hd in Hin; simpl in Hin.
    + contradiction.
    + destruct Hin as [<-|[]]. reflexivity.
  - intros j Hin. destruct Hj as [Hj|Hj]; rewrite Hj in Hin; simpl in Hin.
    + contradiction.
    + destruct Hin as [<-|[]]. reflexivity.
  - apply decode_key_no_plus.
  - apply decode_key_no_percent20.
  - intros Hc Hh.
    destruct (storage_change_found_requests proc w event record Hs Hh Hc)
      as (_ & Hj' & Hd' & _).
    split; assumption.
Qed.

Lemma decoded_key_used_throughout_witness :
  let event := Examples.notification "docs" "in/a+b%2520c%2Bd.pdf" in
  let tr := snd (invoke Examples.deployed (Examples.world Examples.db_up None) event) in
  head_probes tr = [("docs", "in/a b c d.pdf")] /\
  map del_filename (deletion_requests tr) = ["a b c d.pdf"] /\
  map job_uri (job_requests tr) = [Some "s3://docs/in/a b c d.pdf"].
Proof.
  intros event tr.
  assert (Hs : storage_change event
                 {| bucket_name := "docs"; object_key := "in/a+b%2520c%2Bd.pdf" |}).
  { split; [discriminate | reflexivity]. }
  destruct (decoded_key_used_throughout Examples.deployed
              (Examples.world Examples.db_up None) event _ Hs)
    as (Hp & _ & _ & _ & _ & Hr).
  destruct (Hr deployed_configured eq_refl) as [Hd Hj].
  split; [exact Hp|]. unfold tr. rewrite Hd, Hj. split; reflexivity.
Defined.

Lemma configured_table proc :
  configured proc ->
  environ proc !! "POSTGRES_TABLE_NAME" =
    Some (os_environ_get proc "POSTGRES_TABLE_NAME" "").
Proof.
  intros Hc. apply configured_postgres in Hc. revert Hc.
  unfold os_environ_get. simpl.
  destruct (environ proc !! "POSTGRES_DB_NAME"); [|discriminate].
  destruct (environ proc !! "POSTGRES_USER"); [|discriminate].
  destruct (environ proc !! "POSTGRES_PASSWORD"); [|discriminate].
  destruct (environ proc !! "POSTGRES_HOST"); [|discriminate].
  destruct (environ proc !! "POSTGRES_PORT"); [|discriminate].
  destruct (environ proc !! "POSTGRES_TABLE_NAME"); [reflexivity|discriminate].
Qed.

(** C3 fails on the code.  For the notification with bucket [docs] and
    raw key [a%2Bb.pdf] the handler decodes the key to [a+b.pdf] and then
    replaces the [+]: whatever the bucket holds, the probe is for
    [a b.pdf], a deletion has the filename [a b.pdf] and a job the URI
    [s3://docs/a b.pdf].  When the object [a+b.pdf] is there and no object
    [a b.pdf] is, the handler finds nothing, issues no DeletionRequest and
    submits, in a configured process, the job for [s3://docs/a b.pdf].
    Neither [a+b.pdf] nor [s3://docs/a+b.pdf] is ever used. *)
Theorem encoded_plus_misses_object proc w event :
  storage_change event {| bucket_name := "docs"; object_key := "a%2Bb.pdf" |} ->
  let tr := snd (invoke proc w event) in
  head_probes tr = [("docs", "a b.pdf")] /\
  (forall d, In d (deletion_requests tr) -> del_filename d = "a b.pdf") /\
  (forall j, In j (job_requests tr) -> job_uri j = Some "s3://docs/a b.pdf") /\
  (head_object w "docs" "a+b.pdf" = Return tt ->
   head_object w "docs" "a b.pdf" = Raise (ClientError "404") ->
   deletion_requests tr = [] /\
   (configured proc ->
    job_requests tr = [job_request proc w 0 "s3://docs/a b.pdf"])).
Proof.
  intros Hs tr.
  destruct (storage_change_trace proc w event _ Hs) as (Hp & Hd & Hj).
  cbn [bucket_name object_key] in Hp, Hd, Hj.
  change (decode_key "a%2Bb.pdf") with "a b.pdf" in Hp, Hd, Hj.
  change (Str.basename "a b.pdf") with "a b.pdf" in Hd.
  change (s3_url_of "docs" "a b.pdf") with "s3://docs/a b.pdf" in Hj.
  fold tr in Hp, Hd, Hj.
  split; [exact Hp|]. split; [|split].
  - intros d Hin. destruct Hd as [Hd|Hd]; rewrite Hd in Hin; simpl in Hin;
      [contradiction|]. destruct Hin as [<-|[]]. reflexivity.
  - intros j Hin. destruct Hj as [Hj|Hj]; rewrite Hj in Hin; simpl in Hin;
      [contradiction|]. destruct Hin as [<-|[]]. reflexivity.
  - intros _ Habsent.
    pose proof (storage_change_run proc w event _ Hs) as Hrun. cbv zeta in Hrun.
    cbn [bucket_name object_key] in Hrun.
    change (decode_key "a%2Bb.pdf") with "a b.pdf" in Hrun.
    rewrite Habsent in Hrun. simpl in Hrun. split.
    + unfold tr. rewrite Hrun.
      destruct (add_files_trace proc w (s3_url_of "docs" "a b.pdf")
                  [Print LogS3Event; HeadObject "docs" "a b.pdf"])
        as (l & -> & Hl & _).
      rewrite deletion_requests_app, Hl. reflexivity.
    + intros Hc. unfold tr.
      rewrite Hrun, add_files_configured by assumption. reflexivity.
Qed.

Lemma encoded_plus_misses_object_witness :
  let tr := snd (invoke Examples.deployed MoreExamples.plus_bucket
                   (Examples.notification "docs" "a%2Bb.pdf")) in
  head_object MoreExamples.plus_bucket "docs" "a+b.pdf" = Return tt /\
  head_probes tr = [("docs", "a b.pdf")] /\
  deletion_requests tr = [] /\
  map job_uri (job_requests tr) = [Some "s3://docs/a b.pdf"].
Proof.
  intros tr.
  assert (Hs : storage_change (Examples.notification "docs" "a%2Bb.pdf")
                 {| bucket_name := "docs"; object_key := "a%2Bb.pdf" |}).
  { split; [discriminate | reflexivity]. }
  destruct (encoded_plus_misses_object Examples.deployed MoreExamples.plus_bucket
              _ Hs) as (Hp & _ & _ & Hscenario).
  destruct (Hscenario eq_refl eq_refl) as [Hd Hj].
  split; [reflexivity|]. split; [exact Hp|]. split; [exact Hd|].
  unfold tr. rewrite (Hj deployed_configured). reflexivity.
Defined.

(** The bulk listing of the same bucket submits the object under its own
    key: the listed key is not decoded. *)
Lemma bulk_listing_keeps_plus :
  map job_uri
    (job_requests (snd (invoke Examples.deployed MoreExamples.plus_bucket
                          Examples.custom_resource))) =
    [Some "s3://docs/a+b.pdf"].
Proof. vm_compute. reflexivity. Qed.

(** With every probed object there, a working database and a configured
    process, the deletion is for [a b.pdf] and the job for
    [s3://docs/a b.pdf]; neither [a+b.pdf] nor [s3://docs/a+b.pdf] occurs. *)
Lemma scenario_encoded_plus_as_stated :
  let tr := snd (invoke Examples.deployed (Examples.world Examples.db_up None)
                   (Examples.notification "docs" "a%2Bb.pdf")) in
  map del_filename (deletion_requests tr) = ["a b.pdf"] /\
  map job_uri (job_requests tr) = [Some "s3://docs/a b.pdf"] /\
  head_probes tr = [("docs", "a b.pdf")] /\
  ~ In "a+b.pdf" (map del_filename (deletion_requests tr)) /\
  ~ In (Some "s3://docs/a+b.pdf") (map job_uri (job_requests tr)).
Proof.
  assert (H : let tr := snd (invoke Examples.deployed
                               (Examples.world Examples.db_up None)
                               (Examples.notification "docs" "a%2Bb.pdf")) in
              map del_filename (deletion_requests tr) = ["a b.pdf"] /\
              map job_uri (job_requests tr) = [Some "s3://docs/a b.pdf"] /\
              head_probes tr = [("docs", "a b.pdf")]).
  { repeat split; vm_compute; reflexivity. }
  cbv zeta in *. destruct H as (Hd & Hj & Hp). rewrite Hd, Hj.
  split; [reflexivity|]. split; [reflexivity|]. split; [exact Hp|].
  split; intros [Heq|[]]; discriminate.
Qed.

(** ** Deletion failures *)

(** A failed deletion leaves its mark only where the deletion step runs:
    the object is there and the [POSTGRES_*] variables are set. *)
Lemma deletion_failed_reached proc w event record :
  storage_change event record ->
  deletion_failed (snd (invoke proc w event)) ->
  head_object w (bucket_name record) (decode_key (object_key record)) = Return tt /\
  first_missing proc postgres_variables = None.
Proof.
  intros Hs [e Hf]. rewrite (storage_change_run proc w event record Hs) in Hf.
  set (bucket := bucket_name record) in *.
  set (key := decode_key (object_key record)) in *.
  assert (Hadd : forall line,
            In (Print line) (snd (add_files proc w (s3_url_of bucket key)
                                    [Print LogS3Event; HeadObject bucket key])) ->
            line = LogS3Event).
  { intros line.
    destruct (add_files_trace proc w (s3_url_of bucket key)
                [Print LogS3Event; HeadObject bucket key]) as (l & -> & _ & _ & Hl).
    destruct Hl as [->| ->]; simpl; intros H;
      repeat (destruct H as [H|H]; [congruence|]); contradiction. }
  destruct (head_object w bucket key) as [[]|e0].
  - split; [reflexivity|].
    destruct (first_missing proc postgres_variables); [|reflexivity].
    simpl in Hf. destruct Hf as [Hf|Hf];
      repeat (destruct Hf as [Hf|Hf]; [discriminate|]); contradiction.
  - exfalso.
    assert (Hraise : forall e1 : exn,
              ~ (In (Print (LogErrorWhileDeleting e))
                   (snd (Raise e1 : outcome Response,
                         [Print LogS3Event; HeadObject bucket key])) \/
                 In (Print (LogErrorDeleting e))
                   (snd (Raise e1 : outcome Response,
                         [Print LogS3Event; HeadObject bucket key])))).
    { intros e1 [H|H]; simpl in H;
        repeat (destruct H as [H|H]; [discriminate|]); contradiction. }
    destruct e0 as [k|n|code|d]; try (exact (Hraise _ Hf)).
    destruct (String.eqb code "404"); [|exact (Hraise _ Hf)].
    destruct Hf as [Hf|Hf].
    + apply Hadd in Hf. discriminate.
    + apply Hadd in Hf. discriminate.
Qed.

(** [add_files] after a trace without submissions behaves as at the start
    of an invocation. *)
Lemma add_files_fresh proc w s3_url tr :
  job_requests tr = [] ->
  fst (add_files proc w s3_url tr) = fst (add_files proc w s3_url []) /\
  job_requests (snd (add_files proc w s3_url tr)) =
    job_requests (snd (add_files proc w s3_url [])).
Proof.
  intros Hj. rewrite !add_files_run.
  destruct (first_missing proc job_variables); cbn [fst snd].
  - now split.
  - rewrite job_requests_app, Hj. now split.
Qed.

Lemma add_files_database proc w db s3_url tr :
  add_files proc (with_database w db) s3_url tr = add_files proc w s3_url tr.
Proof. rewrite !add_files_run. reflexivity. Qed.

(** C4, as amended.  In a process where every variable read by the job
    assembly is set, a change notification in which the deletion step
    fails still has its ProcessingJobRequest issued: exactly one, for the
    storage URI, as the last event, after the DeletionRequest and the
    failure; the invocation ends as the submission does.  Result and jobs
    are the same with any other database behind psycopg2. *)
Theorem deletion_failure_keeps_submission proc w event record :
  storage_change event record ->
  configured proc ->
  deletion_failed (snd (invoke proc w event)) ->
  let bucket := bucket_name record in
  let key := decode_key (object_key record) in
  let s3_url := s3_url_of bucket key in
  let request := job_request proc w 0 s3_url in
  let tr := snd (invoke proc w event) in
  job_requests tr = [request] /\
  job_uri request = Some s3_url /\
  (exists pre,
     tr = pre ++ [SubmitJob request] /\
     deletion_requests pre = [deletion_request proc (Str.basename key)] /\
     deletion_failed pre) /\
  fst (invoke proc w event) = job_response (submit_job w 0 request) /\
  (forall db,
     fst (invoke proc (with_database w db) event) = fst (invoke proc w event) /\
     job_requests (snd (invoke proc (with_database w db) event)) = job_requests tr).
Proof.
  intros Hs Hc Hf bucket key s3_url request tr.
  destruct (deletion_failed_reached proc w event record Hs Hf) as [Hh Hp].
  destruct (storage_change_found_configured proc w event record Hs Hh Hc)
    as (l & Hq & Hrun).
  fold bucket key s3_url request in Hrun.
  assert (Htr : tr = ([Print LogS3Event; HeadObject bucket key;
                       Print (LogObjectExists key);
                       Delete (deletion_request proc (Str.basename key))] ++ l) ++
                     [SubmitJob request]).
  { unfold tr. rewrite Hrun. cbn [snd]. now rewrite <- app_assoc. }
  assert (Hpre : deletion_requests
                   ([Print LogS3Event; HeadObject bucket key;
                     Print (LogObjectExists key);
                     Delete (deletion_request proc (Str.basename key))] ++ l) =
                   [deletion_request proc (Str.basename key)] /\
                 job_requests
                   ([Print LogS3Event; HeadObject bucket key;
                     Print (LogObjectExists key);
                     Delete (deletion_request proc (Str.basename key))] ++ l) = []).
  { destruct Hq as (Hj & Hd & _).
    rewrite deletion_requests_app, job_requests_app, Hj, Hd. split; reflexivity. }
  destruct Hpre as [Hpd Hpj].
  split; [rewrite Htr, job_requests_app, Hpj; reflexivity|].
  split; [reflexivity|]. split; [|split].
  - eexists. split; [exact Htr|]. split; [exact Hpd|].
    destruct Hf as [e He]. exists e. fold tr in He. rewrite Htr in He.
    destruct He as [He|He]; apply in_app_or in He as [He|[He|[]]];
      try discriminate He; [left | right]; exact He.
  - now rewrite Hrun.
  - intros db.
    destruct (storage_change_found_configured proc (with_database w db) event record
                Hs Hh Hc) as (l' & Hq' & Hrun').
    unfold tr. rewrite Hrun', Hrun. cbn [fst snd].
    split; [reflexivity|].
    destruct (quiet_frame
                [Print LogS3Event; HeadObject bucket key; Print (LogObjectExists key);
                 Delete (deletion_request proc (Str.basename key))] l
                [SubmitJob request] Hq) as (-> & _).
    destruct (quiet_frame
                [Print LogS3Event; HeadObject bucket key; Print (LogObjectExists key);
                 Delete (deletion_request proc (Str.basename key))] l'
                [SubmitJob request] Hq') as (Hw & _).
    exact Hw.
Qed.

Lemma deletion_failure_keeps_submission_witness :
  let w := Examples.world Examples.db_down None in
  let event := Examples.notification "docs" "in/x.pdf" in
  deletion_failed (snd (invoke Examples.deployed w event)) /\
  fst (invoke Examples.deployed (with_database w Examples.db_up) event) =
    fst (invoke Examples.deployed w event) /\
  map job_uri (job_requests (snd (invoke Examples.deployed w event))) =
    [Some "s3://docs/in/x.pdf"].
Proof.
  intros w event.
  assert (Hs : storage_change event
                 {| bucket_name := "docs"; object_key := "in/x.pdf" |}).
  { split; [discriminate | reflexivity]. }
  assert (Hf : deletion_failed (snd (invoke Examples.deployed w event))).
  { exists (ServiceError "connection refused"). left. vm_compute. tauto. }
  destruct (deletion_failure_keeps_submission Examples.deployed w event _ Hs
              deployed_configured Hf) as (Hj & _ & _ & _ & Hdb).
  split; [exact Hf|]. split; [apply Hdb|].
  rewrite Hj. reflexivity.
Defined.

(** C4 as stated fails where the job assembly lacks a variable: with the
    [POSTGRES_*] variables set and no other, the object there and the
    database down, the deletion step fails, the invocation then raises the
    [KeyError] of [add_files] and no ProcessingJobRequest is issued. *)
Lemma deletion_failure_unconfigured :
  let w := Examples.world Examples.db_down None in
  let event := Examples.notification "docs" "in/x.pdf" in
  let run := invoke Examples.half_deployed w event in
  storage_change event {| bucket_name := "docs"; object_key := "in/x.pdf" |} /\
  deletion_failed (snd run) /\
  map del_filename (deletion_requests (snd run)) = ["x.pdf"] /\
  fst run = Raise (KeyError "MY_AWS_ACCESS_KEY_ID") /\
  job_requests (snd run) = [].
Proof.
  intros w event run.
  split; [split; [discriminate | reflexivity]|].
  split; [exists (ServiceError "connection refused"); left; vm_compute; tauto|].
  repeat split; vm_compute; reflexivity.
Qed.

(** ** The bulk listing *)


(** The invocation on an event without records, once the bucket is
    configured and the listing has answered. *)
Lemma bulk_listing_summary proc w event bucket contents :
  bulk_listing event ->
  environ proc !! "S3_BUCKET_NAME" = Some bucket ->
  list_objects_v2 w bucket (os_environ_get proc "S3_NOTIFICATION_PREFIX" "") =
    Return contents ->
  let urls := nonempty_urls bucket (listed contents) in
  let run := invoke proc w event in
  deletion_requests (snd run) = [] /\ head_probes (snd run) = [] /\
  match first_missing proc job_variables with
  | None =>
      fst run =
        match fst (submissions proc w 0 urls) with
        | Return _ => Return bulk_response
        | Raise e => Raise e
        end /\
      job_requests (snd run) = snd (submissions proc w 0 urls)
  | Some k =>
      fst run =
        match urls with
        | [] => Return bulk_response
        | _ :: _ => Raise (KeyError k)
        end /\
      job_requests (snd run) = []
  end.
Proof.
  intros Hb Hbucket Hlist urls run. unfold run, urls.
  rewrite (bulk_listing_run proc w event Hb), Hbucket. cbv zeta. rewrite Hlist.
  destruct contents as [items|]; cbn [listed nonempty_urls].
  - destruct (first_missing proc job_variables) as [k|] eqn:Hm.
    + destruct (for_each_item_unconfigured proc w bucket items k Hm
                  ([Print LogCustomResourceEvent;
                    ListObjectsV2 bucket
                      (os_environ_get proc "S3_NOTIFICATION_PREFIX" "")] ++
                   [Print (LogObjects items)])) as (l & -> & Hj & Hd & Hp).
      assert (Htr : forall r : outcome Response,
                deletion_requests
                  (snd (r, ([Print LogCustomResourceEvent;
                       ListObjectsV2 bucket
                         (os_environ_get proc "S3_NOTIFICATION_PREFIX" "")] ++
                      [Print (LogObjects items)]) ++ l)) = [] /\
                head_probes
                  (snd (r, ([Print LogCustomResourceEvent;
                       ListObjectsV2 bucket
                         (os_environ_get proc "S3_NOTIFICATION_PREFIX" "")] ++
                      [Print (LogObjects items)]) ++ l)) = [] /\
                job_requests
                  (snd (r, ([Print LogCustomResourceEvent;
                       ListObjectsV2 bucket
                         (os_environ_get proc "S3_NOTIFICATION_PREFIX" "")] ++
                      [Print (LogObjects items)]) ++ l)) = []).
      { intros r. cbn [snd].
        rewrite deletion_requests_app, head_probes_app, job_requests_app, Hj, Hd, Hp.
        repeat split. }
      destruct (nonempty_urls bucket items); cbn [fst];
        destruct (Htr (Return bulk_response)) as (H1 & H2 & H3);
        destruct (Htr (Raise (KeyError k))) as (H1' & H2' & H3');
        repeat split; assumption.
    + destruct (for_each_item_configured proc w bucket items Hm
                  ([Print LogCustomResourceEvent;
                    ListObjectsV2 bucket
                      (os_environ_get proc "S3_NOTIFICATION_PREFIX" "")] ++
                   [Print (LogObjects items)])) as (l & Hrun & Hj & Hd & Hp).
      change (length (job_requests _)) with 0%nat in Hrun, Hj.
      rewrite Hrun.
      destruct (submissions proc w 0 (nonempty_urls bucket items)) as [[[]|e] js];
        cbn [fst snd] in Hj |- *;
        rewrite deletion_requests_app, head_probes_app, job_requests_app, Hj, Hd, Hp;
        repeat split.
  - destruct (first_missing proc job_variables); repeat split.
Qed.







(** ** The deletion executor on failures *)

(** C8 fails on the code.  [cursor] is assigned inside the [try] only, and
    the [finally] block reads it: when [psycopg2.connect] or
    [connection.cursor()] raises, the error is logged by the [except]
    clause, then [if cursor:] raises [UnboundLocalError], which leaves
    [delete_from_postgres]; in the second case the connection that was
    opened is never closed. *)
Theorem delete_from_postgres_escapes w db_name user password host port table_name
    filename tr e :
  let request :=
    {| del_db_name := db_name; del_user := user; del_password := password;
       del_host := host; del_port := port; del_table_name := table_name;
       del_filename := filename |} in
  (db_connect (psycopg2 w) db_name user password host port = Raise e ->
   delete_from_postgres w db_name user password host port table_name filename tr =
     (Raise (UnboundLocalError "cursor"),
      tr ++ [Delete request; Connect db_name user password host port;
             Print (LogErrorWhileDeleting e)]))
  /\
  (db_connect (psycopg2 w) db_name user password host port = Return tt ->
   db_cursor (psycopg2 w) = Raise e ->
   delete_from_postgres w db_name user password host port table_name filename tr =
     (Raise (UnboundLocalError "cursor"),
      tr ++ [Delete request; Connect db_name user password host port; OpenCursor;
             Print (LogErrorWhileDeleting e)])
   /\ ~ In CloseConnection
          (snd (delete_from_postgres w db_name user password host port table_name
                  filename []))).
Proof.
  intros request. split.
  - intros Hc. unfold delete_from_postgres. unfold_comp. simpl. rewrite Hc. simpl.
    rewrite <- !app_assoc. reflexivity.
  - intros Hc Hcur. unfold delete_from_postgres. unfold_comp. simpl.
    rewrite Hc, Hcur. simpl. rewrite <- !app_assoc. split; [reflexivity|].
    simpl. intros H. repeat (destruct H as [H|H]; [discriminate|]). exact H.
Qed.

Lemma delete_from_postgres_escapes_witness :
  delete_from_postgres (Examples.world Examples.db_down None)
    "vecs" "postgres" "pw" "db.internal" "5432" "elements" "x.pdf" [] =
    (Raise (UnboundLocalError "cursor"),
     [Delete {| del_db_name := "vecs"; del_user := "postgres"; del_password := "pw";
                del_host := "db.internal"; del_port := "5432";
                del_table_name := "elements"; del_filename := "x.pdf" |};
      Connect "vecs" "postgres" "pw" "db.internal" "5432";
      Print (LogErrorWhileDeleting (ServiceError "connection refused"))])
  /\
  delete_from_postgres (Examples.world Examples.db_no_cursor None)
    "vecs" "postgres" "pw" "db.internal" "5432" "elements" "x.pdf" [] =
    (Raise (UnboundLocalError "cursor"),
     [Delete {| del_db_name := "vecs"; del_user := "postgres"; del_password := "pw";
                del_host := "db.internal"; del_port := "5432";
                del_table_name := "elements"; del_filename := "x.pdf" |};
      Connect "vecs" "postgres" "pw" "db.internal" "5432"; OpenCursor;
      Print (LogErrorWhileDeleting (ServiceError "cursor"))]).
Proof.
  split.
  - destruct (delete_from_postgres_escapes (Examples.world Examples.db_down None)
                "vecs" "postgres" "pw" "db.internal" "5432" "elements" "x.pdf" []
                (ServiceError "connection refused")) as [H _].
    exact (H eq_refl).
  - destruct (delete_from_postgres_escapes (Examples.world Examples.db_no_cursor None)
                "vecs" "postgres" "pw" "db.internal" "5432" "elements" "x.pdf" []
                (ServiceError "cursor")) as [_ H].
    exact (proj1 (H eq_refl eq_refl)).
Defined.

(** Once the connection and the cursor are there, an error of the delete or
    of the commit is caught and logged, both are closed and the executor
    returns. *)
Lemma delete_from_postgres_closes w db_name user password host port table_name
    filename tr :
  db_connect (psycopg2 w) db_name user password host port = Return tt ->
  db_cursor (psycopg2 w) = Return tt ->
  db_cursor_close (psycopg2 w) = Return tt ->
  db_connection_close (psycopg2 w) = Return tt ->
  exists l,
    delete_from_postgres w db_name user password host port table_name filename tr =
      (Return tt, tr ++ l ++ [CloseCursor; CloseConnection; Print LogProcessTook]).
Proof.
  intros Hc Hcur Hcc Hco. unfold delete_from_postgres. unfold_comp. simpl.
  rewrite Hc. simpl. rewrite Hcur. simpl.
  destruct (db_execute _ _ _) as [[]|e1]; simpl;
    [destruct (db_commit _) as [[]|e2]; simpl|];
    rewrite Hcc; simpl; rewrite Hco; simpl; rewrite <- !app_assoc; simpl;
    match goal with
    | |- exists l, (_, _ ++ ?L) = _ =>
        exists (removelast (removelast (removelast L)))
    end; reflexivity.
Qed.

(** ** Failures of the job submission *)

(** The first submission that fails decides how [submissions] ends. *)
Lemma submissions_first_failure proc w (urls : list string) :
  forall n0 i url e,
    urls !! i = Some url ->
    (forall m u, (m < i)%nat -> urls !! m = Some u ->
       exists jobId,
         submit_job w (n0 + m) (job_request proc w (n0 + m) u) = Return jobId) ->
    submit_job w (n0 + i) (job_request proc w (n0 + i) url) = Raise e ->
    fst (submissions proc w n0 urls) = Raise e.
Proof.
  induction urls as [|u urls IH]; intros n0 i url e Hi Hok Hfail.
  - discriminate.
  - destruct i as [|i]; simpl in Hi.
    + injection Hi as ->. simpl. rewrite Nat.add_0_r in Hfail. now rewrite Hfail.
    + simpl. destruct (Hok 0%nat u) as [jobId Hj]; [lia|reflexivity|].
      rewrite Nat.add_0_r in Hj. rewrite Hj.
      specialize (IH (S n0) i url e Hi).
      destruct (submissions proc w (S n0) urls) as [r l]. simpl in *.
      apply IH.
      * intros m u' Hm Hu. destruct (Hok (S m) u') as [jobId' Hj']; [lia|exact Hu|].
        exists jobId'. now rewrite Nat.add_succ_r in Hj'.
      * now rewrite Nat.add_succ_r in Hfail.
Qed.

(** C9.  An invocation that reaches the job assembly does not catch its
    failures.  On a change notification (the object is not there, or it is
    there and the deletion step has run) and in bulk-listing mode (an
    object of nonzero size is listed): when a variable of the job assembly
    is missing, the invocation raises the [KeyError] of the first one; when
    the process is configured and a submission fails, the invocation raises
    the exception of the Batch client.  In neither case a response is
    returned. *)
Theorem job_failure_propagates proc w event :
  (forall record,
     storage_change event record ->
     let bucket := bucket_name record in
     let key := decode_key (object_key record) in
     let s3_url := s3_url_of bucket key in
     head_object w bucket key = Raise (ClientError "404") \/
     (head_object w bucket key = Return tt /\
      first_missing proc postgres_variables = None) ->
     (forall k, first_missing proc job_variables = Some k ->
        fst (invoke proc w event) = Raise (KeyError k)) /\
     (forall e, configured proc ->
        submit_job w 0 (job_request proc w 0 s3_url) = Raise e ->
        fst (invoke proc w event) = Raise e))
  /\
  (bulk_listing event ->
   forall bucket contents,
     environ proc !! "S3_BUCKET_NAME" = Some bucket ->
     list_objects_v2 w bucket (os_environ_get proc "S3_NOTIFICATION_PREFIX" "") =
       Return contents ->
     let urls := nonempty_urls bucket (listed contents) in
     (forall k, first_missing proc job_variables = Some k -> urls <> [] ->
        fst (invoke proc w event) = Raise (KeyError k)) /\
     (forall i url e, configured proc ->
        urls !! i = Some url ->
        (forall m u, (m < i)%nat -> urls !! m = Some u ->
           exists jobId, submit_job w m (job_request proc w m u) = Return jobId) ->
        submit_job w i (job_request proc w i url) = Raise e ->
        fst (invoke proc w event) = Raise e)).
Proof.
  split.
  - intros record Hs bucket key s3_url Hreach.
    assert (Hrun : exists tr1,
              invoke proc w event = add_files proc w s3_url tr1 /\
              job_requests tr1 = []).
    { destruct Hreach as [Hh|[Hh Hp]].
      - pose proof (storage_change_run proc w event record Hs) as Hrun.
        cbv zeta in Hrun. fold bucket key s3_url in Hrun. rewrite Hh in Hrun.
        simpl in Hrun. eexists. split; [exact Hrun | reflexivity].
      - destruct (storage_change_found proc w event record Hs Hh Hp)
          as (l & (Hj & _ & _) & Hrun).
        eexists. split; [exact Hrun|]. rewrite job_requests_app, Hj. reflexivity. }
    destruct Hrun as (tr1 & Hrun & Hj). rewrite Hrun, add_files_run, Hj. split.
    + intros k Hk. now rewrite Hk.
    + intros e Hc He. unfold configured in Hc. rewrite Hc. simpl.
      now rewrite He.
  - intros Hb bucket contents Hbucket Hlist urls.
    destruct (bulk_listing_summary proc w event bucket contents Hb Hbucket Hlist)
      as (_ & _ & Hsum).
    fold urls in Hsum. split.
    + intros k Hk Hne. rewrite Hk in Hsum. destruct Hsum as [Hr _].
      rewrite Hr. destruct urls; [contradiction|reflexivity].
    + intros i url e Hc Hi Hok Hfail. unfold configured in Hc. rewrite Hc in Hsum.
      destruct Hsum as [Hr _]. rewrite Hr.
      rewrite (submissions_first_failure proc w urls 0 i url e Hi Hok Hfail).
      reflexivity.
Qed.

Lemma job_failure_propagates_witness :
  let second_refused n :=
    match n with
    | O => Return "job-0"
    | S _ => Raise (ServiceError "ClientException")
    end in
  let w := Examples.with_batch
             (Examples.world Examples.db_up (Some Examples.two_documents))
             second_refused in
  fst (invoke Examples.half_deployed (Examples.world Examples.db_up None)
         (Examples.notification "docs" "x.pdf")) =
    Raise (KeyError "MY_AWS_ACCESS_KEY_ID") /\
  fst (invoke Examples.deployed w Examples.custom_resource) =
    Raise (ServiceError "ClientException").
Proof.
  intros second_refused w. split.
  - assert (Hs : storage_change (Examples.notification "docs" "x.pdf")
                   {| bucket_name := "docs"; object_key := "x.pdf" |}).
    { split; [discriminate | reflexivity]. }
    assert (Hp : first_missing Examples.half_deployed postgres_variables = None)
      by (vm_compute; reflexivity).
    assert (Hk : first_missing Examples.half_deployed job_variables =
                 Some "MY_AWS_ACCESS_KEY_ID") by (vm_compute; reflexivity).
    destruct (job_failure_propagates Examples.half_deployed
                (Examples.world Examples.db_up None)
                (Examples.notification "docs" "x.pdf")) as [H _].
    destruct (H _ Hs (or_intror (conj eq_refl Hp))) as [Hmissing _].
    exact (Hmissing _ Hk).
  - assert (Hb : bulk_listing Examples.custom_resource).
    { split; [discriminate | reflexivity]. }
    assert (Hbucket : environ Examples.deployed !! "S3_BUCKET_NAME" = Some "docs")
      by (vm_compute; reflexivity).
    destruct (job_failure_propagates Examples.deployed w Examples.custom_resource)
      as [_ H].
    destruct (H Hb "docs" (Some Examples.two_documents) Hbucket eq_refl)
      as [_ Hfail].
    apply (Hfail 1%nat "s3://docs/in/y.pdf" (ServiceError "ClientException")
             deployed_configured eq_refl).
    + intros m u Hm _. destruct m as [|m]; [|lia]. now exists "job-0".
    + reflexivity.
Defined.

(** ** Responses *)

(** A change notification that is answered went through [add_files]. *)
Lemma storage_change_returned proc w event record resp :
  storage_change event record ->
  fst (invoke proc w event) = Return resp ->
  exists tr1,
    invoke proc w event =
      add_files proc w
        (s3_url_of (bucket_name record) (decode_key (object_key record))) tr1 /\
    job_requests tr1 = [].
Proof.
  intros Hs Hr.
  pose proof (storage_change_run proc w event record Hs) as Hrun. cbv zeta in Hrun.
  destruct (head_object w (bucket_name record) (decode_key (object_key record)))
    as [[]|e] eqn:Hh.
  - destruct (first_missing proc postgres_variables) as [k|] eqn:Hp.
    + rewrite Hrun in Hr. discriminate.
    + destruct (storage_change_found proc w event record Hs Hh Hp)
        as (l & (Hj & _ & _) & Hrun').
      eexists. split; [exact Hrun'|]. rewrite job_requests_app, Hj. reflexivity.
  - destruct e as [k|n|code|d]; try (rewrite Hrun in Hr; discriminate).
    destruct (String.eqb code "404").
    + eexists. split; [exact Hrun | reflexivity].
    + rewrite Hrun in Hr. discriminate.
Qed.

(** C10.  In bulk-listing mode a response of the handler is always the
    fixed message about the existing items: what [add_files] returned for
    each object, the job identifier included, is dropped, also when every
    listed object got its job.  On a change notification the response
    carries the identifier the Batch service assigned to the job. *)
Theorem response_bodies proc w event :
  (bulk_listing event ->
   (forall resp, fst (invoke proc w event) = Return resp ->
      resp = {| statusCode := 200;
                body := json_dumps "Processed existing items." |}) /\
   (forall bucket contents,
      environ proc !! "S3_BUCKET_NAME" = Some bucket ->
      list_objects_v2 w bucket (os_environ_get proc "S3_NOTIFICATION_PREFIX" "") =
        Return contents ->
      configured proc -> accepts_all w ->
      fst (invoke proc w event) =
        Return {| statusCode := 200;
                  body := json_dumps "Processed existing items." |} /\
      length (job_requests (snd (invoke proc w event))) =
        length (nonempty_urls bucket (listed contents))))
  /\
  (forall record resp,
     storage_change event record ->
     fst (invoke proc w event) = Return resp ->
     let request :=
       job_request proc w 0
         (s3_url_of (bucket_name record) (decode_key (object_key record))) in
     exists jobId,
       job_requests (snd (invoke proc w event)) = [request] /\
       submit_job w 0 request = Return jobId /\
       resp = {| statusCode := 200;
                 body := json_dumps ("Started Batch Job: " +:+ jobId) |}).
Proof.
  split.
  - intros Hb. split.
    + intros resp. rewrite (bulk_listing_run proc w event Hb).
      destruct (environ proc !! "S3_BUCKET_NAME") as [bucket|]; [|discriminate].
      cbv zeta.
      destruct (list_objects_v2 w bucket _) as [[items|]|e]; try discriminate.
      * destruct (for_each_item proc w bucket items _) as [[[]|e] tr];
          [|discriminate].
        simpl. now intros [= <-].
      * simpl. now intros [= <-].
    + intros bucket contents Hbucket Hlist Hc Ha.
      destruct (bulk_listing_summary proc w event bucket contents Hb Hbucket Hlist)
        as (_ & _ & Hsum).
      unfold configured in Hc. rewrite Hc in Hsum. destruct Hsum as [Hr Hj].
      destruct (submissions_accepted proc w
                  (nonempty_urls bucket (listed contents)) Ha 0) as [Hf Hu].
      rewrite Hr, Hf, Hj. split; [reflexivity|].
      rewrite <- (length_map job_uri), Hu, length_map. reflexivity.
  - intros record resp Hs Hr request.
    destruct (storage_change_returned proc w event record resp Hs Hr)
      as (tr1 & Hrun & Hj).
    rewrite Hrun in Hr |- *. rewrite add_files_run in Hr |- *. rewrite Hj in Hr |- *.
    destruct (first_missing proc job_variables); [discriminate|].
    cbn [length fst snd] in Hr |- *. fold request in Hr |- *.
    destruct (submit_job w 0 request) as [jobId|e]; [|discriminate].
    exists jobId. simpl in Hr. rewrite job_requests_app, Hj.
    split; [reflexivity|]. split; [reflexivity|]. now injection Hr as <-.
Qed.

Lemma response_bodies_witness :
  let w := Examples.world Examples.db_up (Some Examples.two_documents) in
  (fst (invoke Examples.deployed w Examples.custom_resource) =
     Return {| statusCode := 200; body := json_dumps "Processed existing items." |} /\
   length (job_requests (snd (invoke Examples.deployed w Examples.custom_resource)))
     = 2%nat)
  /\
  fst (invoke Examples.deployed w (Examples.notification "docs" "in/x.pdf")) =
    Return {| statusCode := 200; body := json_dumps "Started Batch Job: job-0" |}.
Proof.
  intros w. split.
  - assert (Hb : bulk_listing Examples.custom_resource).
    { split; [discriminate | reflexivity]. }
    assert (Hbucket : environ Examples.deployed !! "S3_BUCKET_NAME" = Some "docs")
      by (vm_compute; reflexivity).
    destruct (response_bodies Examples.deployed w Examples.custom_resource)
      as [H _].
    destruct (H Hb) as [_ Hall].
    exact (Hall "docs" (Some Examples.two_documents) Hbucket eq_refl
             deployed_configured (world_accepts_all _ _)).
  - assert (Hs : storage_change (Examples.notification "docs" "in/x.pdf")
                   {| bucket_name := "docs"; object_key := "in/x.pdf" |}).
    { split; [discriminate | reflexivity]. }
    destruct (response_bodies Examples.deployed w
                (Examples.notification "docs" "in/x.pdf")) as [_ H].
    destruct (fst (invoke Examples.deployed w
                     (Examples.notification "docs" "in/x.pdf")))
      as [resp|e] eqn:Hr.
    + destruct (H _ resp Hs eq_refl) as (jobId & _ & Hid & ->).
      simpl in Hid. now injection Hid as <-.
    + exfalso. revert Hr. vm_compute. discriminate.
Defined.

(** ** More on the deletion executor *)

Ltac case_database :=
  destruct (db_connect _ _ _ _ _ _) as [[]|?e] eqn:?Hconnect; simpl;
    [destruct (db_cursor _) as [[]|?e] eqn:?Hcursor; simpl;
      [destruct (db_execute _ _ _) as [[]|?e] eqn:?Hexecute; simpl;
        [destruct (db_commit _) as [[]|?e] eqn:?Hcommit; simpl|]|]|];
    try (destruct (db_cursor_close _) as [[]|?e] eqn:?Hclose; simpl;
         [destruct (db_connection_close _) as [[]|?e] eqn:?Hdisconnect; simpl|]).

(** The executor does the same after any trace. *)
Lemma delete_from_postgres_from w db_name user password host port table_name
    filename tr :
  delete_from_postgres w db_name user password host port table_name filename tr =
  (fst (delete_from_postgres w db_name user password host port table_name
          filename []),
   tr ++ snd (delete_from_postgres w db_name user password host port table_name
                filename [])).
Proof.
  unfold delete_from_postgres. unfold_comp. simpl.
  case_database; rewrite <- ?app_assoc; reflexivity.
Qed.

(** X1.  The statement is parameterised: whatever the database answers, the
    executor runs at most one statement, its text is the [DELETE] on the
    table with the placeholder [%s], and the file name is passed as the
    one parameter, never put into the text. *)
Theorem delete_statement_parameterised w db_name user password host port table_name
    filename :
  let tr := snd (delete_from_postgres w db_name user password host port table_name
                   filename []) in
  (statements tr = [] \/ statements tr = [(delete_query table_name, [filename])]) /\
  (statements tr = [(delete_query table_name, [filename])] <->
   db_connect (psycopg2 w) db_name user password host port = Return tt /\
   db_cursor (psycopg2 w) = Return tt).
Proof.
  unfold delete_from_postgres, delete_query. unfold_comp. simpl.
  case_database; (split; [(now left) || (now right)|]);
    (split; [intros H; try discriminate H; split; reflexivity
            |intros [H1 H2]; try discriminate H1; try discriminate H2; reflexivity]).
Qed.

(** X2.  The commit follows a statement that succeeded: when [cursor.execute]
    raises, or the cursor or the connection could not be had, no commit is
    attempted. *)
Theorem commit_only_after_execute w db_name user password host port table_name
    filename :
  In Commit (snd (delete_from_postgres w db_name user password host port table_name
                    filename [])) <->
  db_connect (psycopg2 w) db_name user password host port = Return tt /\
  db_cursor (psycopg2 w) = Return tt /\
  db_execute (psycopg2 w) (delete_query table_name) [filename] = Return tt.
Proof.
  unfold delete_from_postgres, delete_query. unfold_comp. simpl.
  case_database;
    (split;
     [intros H; simpl in H;
      repeat (destruct H as [H|H]; [try discriminate H|]); try contradiction;
      repeat split; reflexivity
     |intros (H1 & H2 & H3); try discriminate H1; try discriminate H2;
      try discriminate H3; simpl; tauto]).
Qed.

(** X3.  Once the connection and the cursor are there and can be closed, a
    failure of the statement or of the commit stays inside the executor:
    it is logged, the cursor and then the connection are closed, and the
    executor returns.  The row count is reported only after a commit that
    succeeded. *)
Theorem statement_failure_contained w db_name user password host port table_name
    filename :
  let db := psycopg2 w in
  let run := delete_from_postgres w db_name user password host port table_name
               filename [] in
  db_connect db db_name user password host port = Return tt ->
  db_cursor db = Return tt ->
  db_cursor_close db = Return tt ->
  db_connection_close db = Return tt ->
  fst run = Return tt /\
  (exists l, snd run = l ++ [CloseCursor; CloseConnection; Print LogProcessTook]) /\
  (forall e, db_execute db (delete_query table_name) [filename] = Raise e ->
     In (Print (LogErrorWhileDeleting e)) (snd run) /\ ~ In Commit (snd run)) /\
  (forall e, db_execute db (delete_query table_name) [filename] = Return tt ->
     db_commit db = Raise e -> In (Print (LogErrorWhileDeleting e)) (snd run)) /\
  (In (Print (LogRecordsDeleted (db_rowcount db))) (snd run) <->
   db_execute db (delete_query table_name) [filename] = Return tt /\
   db_commit db = Return tt).
Proof.
  intros db run Hc Hcur Hcc Hco. unfold run, db in *.
  unfold delete_from_postgres, delete_query in *. unfold_comp. simpl.
  rewrite Hc. simpl. rewrite Hcur. simpl.
  destruct (db_execute _ _ _) as [[]|e1]; simpl;
    [destruct (db_commit _) as [[]|e2]; simpl|];
    rewrite Hcc; simpl; rewrite Hco; simpl.
  - split; [reflexivity|].
    split; [eexists (_ :: _ :: _ :: _ :: _ :: _ :: _ :: []); reflexivity|].
    split; [discriminate|]. split; [discriminate|].
    split; [intros _; split; reflexivity | intros _; simpl; tauto].
  - split; [reflexivity|].
    split; [eexists (_ :: _ :: _ :: _ :: _ :: _ :: _ :: []); reflexivity|].
    split; [discriminate|].
    split; [intros e _ [= <-]; simpl; tauto|].
    split; [|intros [_ H]; discriminate H].
    intros H. simpl in H.
    repeat (destruct H as [H|H]; [discriminate H|]). contradiction.
  - split; [reflexivity|].
    split; [eexists (_ :: _ :: _ :: _ :: _ :: _ :: []); reflexivity|].
    split.
    { intros e [= <-]. split; [simpl; tauto|].
      intros H. simpl in H.
      repeat (destruct H as [H|H]; [discriminate H|]). contradiction. }
    split; [discriminate|].
    split; [|intros [H _]; discriminate H].
    intros H. simpl in H.
    repeat (destruct H as [H|H]; [discriminate H|]). contradiction.
Qed.

Lemma statement_failure_contained_witness :
  let w := Examples.world MoreExamples.db_rejects None in
  let run := delete_from_postgres w "vecs" "postgres" "pw" "db.internal" "5432"
               "elements" "x.pdf" [] in
  fst run = Return tt /\
  In (Print (LogErrorWhileDeleting (ServiceError "UndefinedTable"))) (snd run) /\
  ~ In Commit (snd run) /\
  In CloseConnection (snd run).
Proof.
  intros w run.
  destruct (statement_failure_contained w "vecs" "postgres" "pw" "db.internal" "5432"
              "elements" "x.pdf" eq_refl eq_refl eq_refl eq_refl)
    as (Hr & [l Hl] & Hexec & _).
  destruct (Hexec (ServiceError "UndefinedTable") eq_refl) as [Hlog Hcommit].
  split; [exact Hr|]. split; [exact Hlog|]. split; [exact Hcommit|].
  unfold run. rewrite Hl. apply in_or_app. right. simpl. tauto.
Defined.

(** X4.  When [cursor.close()] raises in the [finally] block, that exception
    leaves the executor, [connection.close()] is not reached and the
    connection stays open. *)
Theorem cursor_close_failure_leaks_connection w db_name user password host port
    table_name filename e :
  let db := psycopg2 w in
  let run := delete_from_postgres w db_name user password host port table_name
               filename [] in
  db_connect db db_name user password host port = Return tt ->
  db_cursor db = Return tt ->
  db_cursor_close db = Raise e ->
  fst run = Raise e /\
  In CloseCursor (snd run) /\
  ~ In CloseConnection (snd run) /\
  ~ In (Print LogProcessTook) (snd run).
Proof.
  intros db run Hc Hcur Hcc. unfold run, db in *.
  unfold delete_from_postgres in *. unfold_comp. simpl.
  rewrite Hc. simpl. rewrite Hcur. simpl.
  destruct (db_execute _ _ _) as [[]|e1]; simpl;
    [destruct (db_commit _) as [[]|e2]; simpl|];
    rewrite Hcc; simpl;
    (split; [reflexivity|]); (split; [tauto|]);
    split; intros H; repeat (destruct H as [H|H]; [discriminate H|]); contradiction.
Qed.

Lemma cursor_close_failure_leaks_connection_witness :
  let w := Examples.world MoreExamples.db_stuck_cursor None in
  let run := delete_from_postgres w "vecs" "postgres" "pw" "db.internal" "5432"
               "elements" "x.pdf" [] in
  fst run = Raise (ServiceError "InterfaceError") /\
  In Commit (snd run) /\
  ~ In CloseConnection (snd run).
Proof.
  intros w run.
  destruct (cursor_close_failure_leaks_connection w "vecs" "postgres" "pw"
              "db.internal" "5432" "elements" "x.pdf" (ServiceError "InterfaceError")
              eq_refl eq_refl eq_refl) as (Hr & _ & Hleak & _).
  split; [exact Hr|]. split; [|exact Hleak].
  vm_compute. tauto.
Defined.

(** ** The three cases and what each touches *)

Lemma event_cases event :
  teardown event \/ (exists record, storage_change event record) \/ bulk_listing event.
Proof.
  unfold storage_change, bulk_listing, teardown.
  destruct (decide (RequestType event = Some "Delete")) as [Ht|Ht]; [now left|right].
  destruct (first_record event) as [record|] eqn:Hr.
  - left. exists record. now split.
  - right. now split.
Qed.

Lemma statements_app (l1 l2 : Trace) :
  statements (l1 ++ l2) = statements l1 ++ statements l2.
Proof. apply omap_app. Qed.

Lemma listings_app (l1 l2 : Trace) :
  listings (l1 ++ l2) = listings l1 ++ listings l2.
Proof. apply omap_app. Qed.

Lemma database_calls_app (l1 l2 : Trace) :
  database_calls (l1 ++ l2) = database_calls l1 ++ database_calls l2.
Proof. apply List.filter_app. Qed.

Lemma submission_events_projections l :
  Forall submission_event l ->
  database_calls l = [] /\ statements l = [] /\ listings l = [] /\
  deletion_requests l = [] /\ head_probes l = [].
Proof.
  induction 1 as [|ev l Hev _ IH]; [repeat split|].
  destruct IH as (H1 & H2 & H3 & H4 & H5).
  destruct Hev as [[key ->]|[j ->]]; simpl;
    unfold database_calls, statements, listings, deletion_requests, head_probes in *;
    simpl; rewrite ?H1, ?H2, ?H3, ?H4, ?H5; repeat split; assumption.
Qed.

Lemma add_files_events proc w s3_url tr :
  exists l, snd (add_files proc w s3_url tr) = tr ++ l /\ Forall submission_event l.
Proof.
  destruct (add_files_trace proc w s3_url tr) as (l & Hl & _ & _ & [->| ->]).
  - exists []. split; [exact Hl | constructor].
  - eexists. split; [exact Hl|]. constructor; [|constructor]. right. eauto.
Qed.

Lemma for_each_item_events proc w bucket contents : forall tr,
  exists l,
    snd (for_each_item proc w bucket contents tr) = tr ++ l /\
    Forall submission_event l.
Proof.
  induction contents as [|item rest IH]; intros tr; simpl.
  - exists []. rewrite app_nil_r. split; [reflexivity | constructor].
  - unfold bind at 1. destruct (Size item =? 0).
    + unfold print, emit, modify, record_event, Trace_traced.
      destruct (IH (tr ++ [Print (LogSkippingFolder (Key item))])) as (l & Hl & Hf).
      exists (Print (LogSkippingFolder (Key item)) :: l).
      rewrite Hl, <- app_assoc. split; [reflexivity|].
      constructor; [left; eauto | exact Hf].
    + unfold bind at 1.
      destruct (add_files_events proc w (s3_url_of bucket (Key item)) tr)
        as (l1 & Hl1 & Hf1).
      destruct (add_files proc w (s3_url_of bucket (Key item)) tr) as [[resp|e] tr1];
        simpl in Hl1; subst tr1.
      * unfold ret. destruct (IH (tr ++ l1)) as (l & Hl & Hf).
        exists (l1 ++ l). rewrite Hl, <- app_assoc. split; [reflexivity|].
        apply Forall_app. now split.
      * exists l1. split; [reflexivity | exact Hf1].
Qed.

(** The trace of the bulk-listing case: the log line, then, when the
    bucket is configured, the one listing and what follows it. *)
Lemma bulk_listing_events proc w event :
  bulk_listing event ->
  let tr := snd (invoke proc w event) in
  match environ proc !! "S3_BUCKET_NAME" with
  | None => tr = [Print LogCustomResourceEvent]
  | Some bucket =>
      exists l,
        tr = [Print LogCustomResourceEvent;
              ListObjectsV2 bucket (os_environ_get proc "S3_NOTIFICATION_PREFIX" "")]
             ++ l /\
        listings l = [] /\ database_calls l = [] /\ statements l = []
  end.
Proof.
  intros Hb tr. unfold tr. rewrite (bulk_listing_run proc w event Hb).
  destruct (environ proc !! "S3_BUCKET_NAME") as [bucket|]; [|reflexivity].
  cbv zeta. destruct (list_objects_v2 w bucket _) as [[items|]|e].
  - destruct (for_each_item_events proc w bucket items
                ([Print LogCustomResourceEvent;
                  ListObjectsV2 bucket
                    (os_environ_get proc "S3_NOTIFICATION_PREFIX" "")] ++
                 [Print (LogObjects items)])) as (l & Hl & Hf).
    destruct (submission_events_projections l Hf) as (H1 & H2 & H3 & _).
    exists (Print (LogObjects items) :: l).
    split.
    + destruct (for_each_item proc w bucket items _) as [[[]|e] tr1];
        simpl in Hl |- *; subst tr1; reflexivity.
    + split; [exact H3|]. split; [exact H1 | exact H2].
  - exists [Print LogNoObjects]. repeat split.
  - exists []. repeat split.
Qed.

(** The trace of the deletion step: that of the executor, and one more log
    line when an exception left it. *)
Lemma deletion_step_events proc w d tr :
  exists post,
    snd (deletion_step proc w d tr) =
      tr ++ snd (delete_from_postgres w (del_db_name d) (del_user d) (del_password d)
                   (del_host d) (del_port d) (del_table_name d) (del_filename d) [])
         ++ post /\
    (post = [] \/ exists e, post = [Print (LogErrorDeleting e)]).
Proof.
  unfold deletion_step, try_except. rewrite delete_from_postgres_from.
  destruct (fst (delete_from_postgres w _ _ _ _ _ _ _ [])) as [[]|e]; simpl.
  - exists []. rewrite app_nil_r. split; [reflexivity | now left].
  - exists [Print (LogErrorDeleting e)]. unfold_comp. rewrite <- app_assoc.
    split; [reflexivity | right; eauto].
Qed.

(** The database calls and the listings of a change notification: those
    of the executor when the object is there and the [POSTGRES_*]
    variables are set, none otherwise. *)
Lemma storage_change_database proc w event record :
  storage_change event record ->
  let bucket := bucket_name record in
  let key := decode_key (object_key record) in
  let d := deletion_request proc (Str.basename key) in
  let executor :=
    snd (delete_from_postgres w (del_db_name d) (del_user d) (del_password d)
           (del_host d) (del_port d) (del_table_name d) (del_filename d) []) in
  let tr := snd (invoke proc w event) in
  listings tr = [] /\
  ((head_object w bucket key = Return tt /\
    first_missing proc postgres_variables = None /\
    database_calls tr = database_calls executor /\
    statements tr = statements executor)
   \/
   (~ (head_object w bucket key = Return tt /\
       first_missing proc postgres_variables = None) /\
    database_calls tr = [] /\ statements tr = [])).
Proof.
  intros Hs bucket key d executor tr. unfold tr.
  rewrite (storage_change_run proc w event record Hs). fold bucket key.
  assert (Hadd : forall pre,
            let tr1 := snd (add_files proc w (s3_url_of bucket key) pre) in
            listings tr1 = listings pre /\ database_calls tr1 = database_calls pre /\
            statements tr1 = statements pre).
  { intros pre tr1. unfold tr1.
    destruct (add_files_events proc w (s3_url_of bucket key) pre) as (l & -> & Hf).
    destruct (submission_events_projections l Hf) as (H1 & H2 & H3 & _).
    rewrite listings_app, database_calls_app, statements_app, H1, H2, H3, !app_nil_r.
    repeat split. }
  destruct (head_object w bucket key) as [[]|e].
  - destruct (first_missing proc postgres_variables) as [k|].
    + split; [reflexivity|]. right. split; [intros [_ H]; discriminate H|].
      split; reflexivity.
    + destruct (Hadd (snd (deletion_step proc w d
                             ([Print LogS3Event; HeadObject bucket key] ++
                              [Print (LogObjectExists key)])))) as (H1 & H2 & H3).
      fold d. rewrite H1, H2, H3.
      destruct (deletion_step_events proc w d
                  ([Print LogS3Event; HeadObject bucket key] ++
                   [Print (LogObjectExists key)])) as (post & -> & Hpost).
      fold executor.
      rewrite !listings_app, !database_calls_app, !statements_app.
      assert (Hex : listings executor = []).
      { unfold executor. destruct d. simpl.
        unfold delete_from_postgres. unfold_comp. simpl.
        case_database; reflexivity. }
      assert (Hp : listings post = [] /\ database_calls post = [] /\
                   statements post = []).
      { destruct Hpost as [->|[e ->]]; repeat split. }
      destruct Hp as (P1 & P2 & P3). rewrite Hex, P1, P2, P3, !app_nil_r.
      split; [reflexivity|]. left. repeat split.
  - assert (Hno : ~ (Raise e = Return () /\
                     first_missing proc postgres_variables = None)).
    { intros [H _]. discriminate H. }
    destruct e as [k|n|code|descr];
      try (split; [reflexivity|]; right; split; [exact Hno|]; split; reflexivity).
    destruct (String.eqb code "404").
    + destruct (Hadd [Print LogS3Event; HeadObject bucket key]) as (H1 & H2 & H3).
      rewrite H1, H2, H3. split; [reflexivity|]. right.
      split; [exact Hno|]. split; reflexivity.
    + split; [reflexivity|]. right. split; [exact Hno|]. split; reflexivity.
Qed.

Lemma postgres_table proc :
  first_missing proc postgres_variables = None ->
  environ proc !! "POSTGRES_TABLE_NAME" =
    Some (os_environ_get proc "POSTGRES_TABLE_NAME" "").
Proof.
  unfold os_environ_get. simpl.
  destruct (environ proc !! "POSTGRES_DB_NAME"); [|discriminate].
  destruct (environ proc !! "POSTGRES_USER"); [|discriminate].
  destruct (environ proc !! "POSTGRES_PASSWORD"); [|discriminate].
  destruct (environ proc !! "POSTGRES_HOST"); [|discriminate].
  destruct (environ proc !! "POSTGRES_PORT"); [|discriminate].
  destruct (environ proc !! "POSTGRES_TABLE_NAME"); [reflexivity|discriminate].
Qed.

Lemma teardown_trace proc w event :
  teardown event -> snd (invoke proc w event) = [Print LogStackDeleted].
Proof.
  intros Ht. unfold invoke, lambda_handler.
  destruct (decide (RequestType event = Some "Delete")); [reflexivity|contradiction].
Qed.

(** X5.  The database is contacted only for a change notification whose object
    is in the bucket (and with the [POSTGRES_*] variables set): a teardown
    event, a bulk listing and a notification for a new object make no call
    to psycopg2. *)
Theorem database_only_for_existing_object proc w event :
  database_calls (snd (invoke proc w event)) <> [] ->
  exists record,
    storage_change event record /\
    head_object w (bucket_name record) (decode_key (object_key record)) = Return tt /\
    first_missing proc postgres_variables = None.
Proof.
  intros Hdb. destruct (event_cases event) as [Ht|[[record Hs]|Hb]].
  - rewrite (teardown_trace proc w event Ht) in Hdb. now contradiction Hdb.
  - exists record. split; [exact Hs|].
    destruct (storage_change_database proc w event record Hs)
      as (_ & [(Hh & Hp & _)|(_ & Hnone & _)]).
    + now split.
    + contradiction.
  - exfalso. apply Hdb. pose proof (bulk_listing_events proc w event Hb) as Hev.
    cbv zeta in Hev. destruct (environ proc !! "S3_BUCKET_NAME").
    + destruct Hev as (l & -> & _ & Hl & _). rewrite database_calls_app, Hl.
      reflexivity.
    + rewrite Hev. reflexivity.
Qed.

Lemma database_only_for_existing_object_witness :
  exists record,
    storage_change (Examples.notification "docs" "in/x.pdf") record /\
    head_object (Examples.world Examples.db_up None) (bucket_name record)
      (decode_key (object_key record)) = Return tt /\
    first_missing Examples.deployed postgres_variables = None.
Proof.
  apply (database_only_for_existing_object Examples.deployed
           (Examples.world Examples.db_up None)).
  vm_compute. discriminate.
Defined.

(** X6.  Every SQL statement of an invocation is the parameterised [DELETE] on
    the configured table, with the basename of the decoded key of the
    first record as its one parameter; an invocation runs at most one. *)
Theorem invocation_statements proc w event q ps :
  In (q, ps) (statements (snd (invoke proc w event))) ->
  exists record table,
    storage_change event record /\
    environ proc !! "POSTGRES_TABLE_NAME" = Some table /\
    q = delete_query table /\
    ps = [Str.basename (decode_key (object_key record))] /\
    statements (snd (invoke proc w event)) = [(q, ps)].
Proof.
  intros Hin. destruct (event_cases event) as [Ht|[[record Hs]|Hb]].
  - rewrite (teardown_trace proc w event Ht) in Hin. contradiction.
  - destruct (storage_change_database proc w event record Hs)
      as (_ & [(Hh & Hp & _ & Hst)|(_ & _ & Hnone)]).
    + exists record, (os_environ_get proc "POSTGRES_TABLE_NAME" "").
      split; [exact Hs|]. split; [apply postgres_table, Hp|].
      rewrite Hst in Hin |- *. cbn [deletion_request del_db_name del_user
        del_password del_host del_port del_table_name del_filename] in Hin |- *.
      revert Hin. unfold delete_from_postgres, delete_query. unfold_comp. simpl.
      case_database; simpl; intros Hin; try contradiction;
        destruct Hin as [[= <- <-]|[]]; repeat split.
    + rewrite Hnone in Hin. contradiction.
  - exfalso. pose proof (bulk_listing_events proc w event Hb) as Hev.
    cbv zeta in Hev. destruct (environ proc !! "S3_BUCKET_NAME").
    + destruct Hev as (l & Htr & _ & _ & Hl). rewrite Htr, statements_app, Hl in Hin.
      contradiction.
    + rewrite Hev in Hin. contradiction.
Qed.

Lemma invocation_statements_witness :
  exists record table,
    storage_change (Examples.notification "docs" "in/a+b.pdf") record /\
    environ Examples.deployed !! "POSTGRES_TABLE_NAME" = Some table /\
    "DELETE FROM elements WHERE filename = %s" = delete_query table /\
    ["a b.pdf"] = [Str.basename (decode_key (object_key record))] /\
    statements (snd (invoke Examples.deployed (Examples.world Examples.db_up None)
                       (Examples.notification "docs" "in/a+b.pdf"))) =
      [("DELETE FROM elements WHERE filename = %s", ["a b.pdf"])].
Proof.
  apply (invocation_statements Examples.deployed (Examples.world Examples.db_up None)).
  vm_compute. tauto.
Defined.

(** X7.  In bulk-listing mode one listing request is made, for the configured
    bucket and the prefix [S3_NOTIFICATION_PREFIX] (the empty prefix when
    it is not set), whatever the listing returns: no further page is asked
    for.  It is the second event of the invocation. *)
Theorem bulk_single_listing proc w event bucket :
  bulk_listing event ->
  environ proc !! "S3_BUCKET_NAME" = Some bucket ->
  let prefix :=
    match environ proc !! "S3_NOTIFICATION_PREFIX" with
    | Some p => p
    | None => ""
    end in
  listings (snd (invoke proc w event)) = [(bucket, prefix)] /\
  exists l, snd (invoke proc w event) =
            Print LogCustomResourceEvent :: ListObjectsV2 bucket prefix :: l.
Proof.
  intros Hb Hbucket prefix.
  pose proof (bulk_listing_events proc w event Hb) as Hev. cbv zeta in Hev.
  rewrite Hbucket in Hev. destruct Hev as (l & -> & Hl & _).
  rewrite listings_app, Hl. split; [reflexivity|]. now exists l.
Qed.

Lemma bulk_single_listing_witness :
  listings (snd (invoke MoreExamples.bucket_only
                   (Examples.world Examples.db_up (Some Examples.two_documents))
                   Examples.custom_resource)) = [("docs", "")] /\
  listings (snd (invoke Examples.deployed
                   (Examples.world Examples.db_up (Some Examples.two_documents))
                   Examples.custom_resource)) = [("docs", "in/")].
Proof.
  assert (Hb : bulk_listing Examples.custom_resource).
  { split; [discriminate | reflexivity]. }
  split.
  - assert (Hv : environ MoreExamples.bucket_only !! "S3_BUCKET_NAME" = Some "docs")
      by (vm_compute; reflexivity).
    exact (proj1 (bulk_single_listing MoreExamples.bucket_only
                    (Examples.world Examples.db_up (Some Examples.two_documents))
                    Examples.custom_resource "docs" Hb Hv)).
  - assert (Hv : environ Examples.deployed !! "S3_BUCKET_NAME" = Some "docs")
      by (vm_compute; reflexivity).
    exact (proj1 (bulk_single_listing Examples.deployed
                    (Examples.world Examples.db_up (Some Examples.two_documents))
                    Examples.custom_resource "docs" Hb Hv)).
Defined.

(** X8.  In bulk-listing mode without [S3_BUCKET_NAME] the invocation raises
    the [KeyError] before any service is called: nothing is listed and no
    job is submitted. *)
Theorem bulk_listing_needs_bucket proc w event :
  bulk_listing event ->
  environ proc !! "S3_BUCKET_NAME" = None ->
  invoke proc w event =
    (Raise (KeyError "S3_BUCKET_NAME"), [Print LogCustomResourceEvent]).
Proof.
  intros Hb Hbucket. rewrite (bulk_listing_run proc w event Hb), Hbucket. reflexivity.
Qed.

Lemma bulk_listing_needs_bucket_witness :
  invoke Examples.bare (Examples.world Examples.db_up (Some Examples.listing))
    Examples.custom_resource =
    (Raise (KeyError "S3_BUCKET_NAME"), [Print LogCustomResourceEvent]).
Proof.
  apply bulk_listing_needs_bucket.
  - split; [discriminate | reflexivity].
  - vm_compute. reflexivity.
Defined.

(** ** The jobs of an invocation *)

Lemma submissions_single proc w n url :
  snd (submissions proc w n [url]) = [job_request proc w n url].
Proof. simpl. destruct (submit_job w n _); reflexivity. Qed.

(** The jobs of any invocation: none, or, in a configured process, those
    of a run of [submissions] from the first job on. *)
Lemma invocation_jobs proc w event :
  job_requests (snd (invoke proc w event)) = [] \/
  (configured proc /\
   exists urls, job_requests (snd (invoke proc w event)) =
                snd (submissions proc w 0 urls)).
Proof.
  destruct (event_cases event) as [Ht|[[record Hs]|Hb]].
  - left. now rewrite (teardown_trace proc w event Ht).
  - destruct (storage_change_trace proc w event record Hs) as (_ & _ & [Hj|Hj]);
      [now left|right].
    assert (Hc : configured proc).
    { unfold configured.
      destruct (first_missing proc job_variables) as [k|] eqn:Hk; [|reflexivity].
      exfalso. revert Hj. rewrite (storage_change_run proc w event record Hs).
      cbv zeta.
      destruct (head_object w _ _) as [[]|e].
      - destruct (first_missing proc postgres_variables); [discriminate|].
        rewrite add_files_run, Hk. cbn [snd].
        destruct (deletion_step_run proc w
                    (deletion_request proc
                       (Str.basename (decode_key (object_key record))))
                    ([Print LogS3Event;
                      HeadObject (bucket_name record)
                        (decode_key (object_key record))] ++
                     [Print (LogObjectExists (decode_key (object_key record)))]))
          as (l & -> & Hq & _).
        cbn [snd]. rewrite !job_requests_app. simpl. rewrite Hq. discriminate.
      - destruct e as [k'|n|code|descr]; try discriminate.
        destruct (String.eqb code "404"); [|discriminate].
        rewrite add_files_run, Hk. discriminate. }
    split; [exact Hc|].
    exists [s3_url_of (bucket_name record) (decode_key (object_key record))].
    rewrite submissions_single. exact Hj.
  - rewrite (bulk_listing_run proc w event Hb).
    destruct (environ proc !! "S3_BUCKET_NAME") as [bucket|]; [|now left].
    cbv zeta. destruct (list_objects_v2 w bucket _) as [[items|]|e];
      [|now left|now left].
    destruct (first_missing proc job_variables) as [k|] eqn:Hk.
    + left.
      destruct (for_each_item_unconfigured proc w bucket items k Hk
                  ([Print LogCustomResourceEvent;
                    ListObjectsV2 bucket
                      (os_environ_get proc "S3_NOTIFICATION_PREFIX" "")] ++
                   [Print (LogObjects items)])) as (l & -> & Hq & _).
      destruct (nonempty_urls bucket items); cbn [snd];
        rewrite job_requests_app, Hq; reflexivity.
    + right. split; [exact Hk|]. exists (nonempty_urls bucket items).
      destruct (for_each_item_configured proc w bucket items Hk
                  ([Print LogCustomResourceEvent;
                    ListObjectsV2 bucket
                      (os_environ_get proc "S3_NOTIFICATION_PREFIX" "")] ++
                   [Print (LogObjects items)])) as (l & Hrun & Hj & _).
      change (length (job_requests _)) with 0%nat in Hrun, Hj. rewrite Hrun.
      destruct (fst (submissions proc w 0 (nonempty_urls bucket items)));
        cbn [snd]; rewrite job_requests_app, Hj; reflexivity.
Qed.

Lemma submissions_requests proc w urls : forall n j,
  In j (snd (submissions proc w n urls)) ->
  exists i url, j = job_request proc w i url.
Proof.
  induction urls as [|url urls IH]; intros n j; simpl; [contradiction|].
  destruct (submit_job w n _).
  - specialize (IH (S n) j). destruct (submissions proc w (S n) urls) as [r l].
    simpl in *. intros [<-|Hin]; eauto.
  - simpl. intros [<-|[]]. eauto.
Qed.

Lemma submissions_names proc w urls : forall n,
  map jobName (snd (submissions proc w n urls)) =
  map (fun i => "BatchJob_" +:+ uuid4 w i)
    (seq n (length (snd (submissions proc w n urls)))).
Proof.
  induction urls as [|url urls IH]; intros n; simpl; [reflexivity|].
  destruct (submit_job w n _).
  - specialize (IH (S n)). destruct (submissions proc w (S n) urls) as [r l].
    simpl in *. now rewrite IH.
  - reflexivity.
Qed.

Lemma configured_variable proc k :
  configured proc -> In k job_variables ->
  environ proc !! k = Some (os_environ_get proc k "").
Proof.
  unfold configured, os_environ_get. intros Hc Hin.
  assert (H : forall vars, first_missing proc vars = None -> In k vars ->
            exists v, environ proc !! k = Some v).
  { induction vars as [|k' vars IH]; simpl; [contradiction|].
    destruct (environ proc !! k') as [v|] eqn:Hv; [|discriminate].
    intros Hm [<-|Hin']; eauto. }
  destruct (H job_variables Hc Hin) as [v ->]. reflexivity.
Qed.

(** X9.  The environment of every job an invocation submits: the sixteen names
    in their order; under each name that stands for a variable of the
    process, the value of that variable (the AWS credentials are read from
    the [MY_AWS_*] variables); the fixed download directory [/tmp/]; the
    text of the ingestion script.  Queue and definition are the values of
    [JOB_QUEUE] and [JOB_DEFINITION]. *)
Theorem job_environment proc w event j :
  In j (job_requests (snd (invoke proc w event))) ->
  map fst (environment j) = job_environment_names /\
  Forall (fun names : string * string =>
            env_value (fst names) (environment j) = environ proc !! snd names)
         passed_variables /\
  env_value "LOCAL_FILE_DOWNLOAD_DIR" (environment j) = Some "/tmp/" /\
  env_value "APP_SCRIPT" (environment j) = Some (app_script proc) /\
  environ proc !! "JOB_QUEUE" = Some (jobQueue j) /\
  environ proc !! "JOB_DEFINITION" = Some (jobDefinition j).
Proof.
  intros Hin. destruct (invocation_jobs proc w event) as [Hnone|(Hc & urls & Hj)].
  - rewrite Hnone in Hin. contradiction.
  - rewrite Hj in Hin.
    destruct (submissions_requests proc w urls 0 j Hin) as (i & url & ->).
    split; [reflexivity|]. split.
    + unfold passed_variables.
      repeat (constructor;
              [cbn; symmetry; apply configured_variable;
               [exact Hc | unfold job_variables; simpl; tauto]|]).
      constructor.
    + split; [reflexivity|]. split; [reflexivity|].
      split; apply configured_variable; try exact Hc;
        unfold job_variables; simpl; tauto.
Qed.

Lemma job_environment_witness :
  let j := job_request Examples.deployed (Examples.world Examples.db_up None) 0
             "s3://docs/in/x.pdf" in
  env_value "AWS_ACCESS_KEY_ID" (environment j) = Some "AKIAEXAMPLE" /\
  env_value "POSTGRES_PASSWORD" (environment j) = Some "pw" /\
  jobQueue j = "queue".
Proof.
  intros j.
  assert (Hin : In j (job_requests
                        (snd (invoke Examples.deployed
                                (Examples.world Examples.db_up None)
                                (Examples.notification "docs" "in/x.pdf"))))).
  { vm_compute. tauto. }
  destruct (job_environment _ _ _ _ Hin) as (_ & Hpass & _ & _ & Hq & _).
  apply Forall_cons in Hpass as [Hkey Hpass].
  do 3 apply Forall_cons in Hpass as [_ Hpass].
  apply Forall_cons in Hpass as [Hpw _].
  cbn [fst snd] in Hkey, Hpw. rewrite Hkey, Hpw.
  split; [vm_compute; reflexivity|]. split; [vm_compute; reflexivity|].
  assert (Hv : environ Examples.deployed !! "JOB_QUEUE" = Some "queue")
    by (vm_compute; reflexivity).
  rewrite Hv in Hq. congruence.
Defined.

Lemma append_cancel (p a b : string) : p +:+ a = p +:+ b -> a = b.
Proof.
  induction p as [|c p IH]; simpl; [tauto|]. intros [= H]. exact (IH H).
Qed.

Lemma tally_injective m n : MoreExamples.tally m = MoreExamples.tally n -> m = n.
Proof.
  revert n. induction m as [|m IH]; intros [|n]; simpl; try discriminate.
  - reflexivity.
  - intros [= H]. f_equal. exact (IH n H).
Qed.

Lemma NoDup_map_injective {A B} (f : A -> B) (l : list A) :
  (forall x y, f x = f y -> x = y) -> NoDup l -> NoDup (map f l).
Proof.
  intros Hinj. induction 1 as [|x l Hx _ IH]; simpl; constructor; [|exact IH].
  intros Hin. apply list_elem_of_In, in_map_iff in Hin as (y & Hy & Hin).
  apply Hinj in Hy. subst y. apply Hx, list_elem_of_In, Hin.
Qed.

(** X10.  The jobs of one invocation carry different names as long as
    [uuid.uuid4] does not repeat itself: the name of the job submitted
    after [i] others is [BatchJob_] followed by the identifier drawn for
    it. *)
Theorem job_names_distinct proc w event :
  (forall m n, uuid4 w m = uuid4 w n -> m = n) ->
  NoDup (map jobName (job_requests (snd (invoke proc w event)))) /\
  map jobName (job_requests (snd (invoke proc w event))) =
    map (fun i => "BatchJob_" +:+ uuid4 w i)
      (seq 0 (length (job_requests (snd (invoke proc w event))))).
Proof.
  intros Hinj.
  assert (Hnames : map jobName (job_requests (snd (invoke proc w event))) =
                   map (fun i => "BatchJob_" +:+ uuid4 w i)
                     (seq 0 (length (job_requests (snd (invoke proc w event)))))).
  { destruct (invocation_jobs proc w event) as [->|(_ & urls & ->)];
      [reflexivity | apply submissions_names]. }
  split; [|exact Hnames]. rewrite Hnames.
  apply NoDup_map_injective; [|apply NoDup_seq].
  intros m n H. apply Hinj. exact (append_cancel _ _ _ H).
Qed.

Lemma job_names_distinct_witness :
  map jobName
    (job_requests
       (snd (invoke Examples.deployed
               (MoreExamples.fresh_world Examples.db_up (Some Examples.two_documents))
               Examples.custom_resource))) =
    ["BatchJob_a"; "BatchJob_ia"].
Proof.
  destruct (job_names_distinct Examples.deployed
              (MoreExamples.fresh_world Examples.db_up (Some Examples.two_documents))
              Examples.custom_resource tally_injective) as [_ H].
  rewrite H. vm_compute. reflexivity.
Defined.

(** ** Responses and events *)

(** X11.  Whenever the handler returns, the status code is 200: there is no path
    with another one, a failure is always an exception. *)
Theorem status_code_200 proc w event resp :
  fst (invoke proc w event) = Return resp -> statusCode resp = 200.
Proof.
  intros Hr. destruct (event_cases event) as [Ht|[[record Hs]|Hb]].
  - revert Hr. unfold invoke, lambda_handler.
    destruct (decide (RequestType event = Some "Delete")); [|contradiction].
    simpl. now intros [= <-].
  - destruct (storage_change_returned proc w event record resp Hs Hr)
      as (tr1 & Hrun & _).
    rewrite Hrun, add_files_run in Hr.
    destruct (first_missing proc job_variables); [discriminate|].
    cbn [fst] in Hr. destruct (submit_job w _ _); [|discriminate].
    simpl in Hr. now injection Hr as <-.
  - revert Hr. rewrite (bulk_listing_run proc w event Hb).
    destruct (environ proc !! "S3_BUCKET_NAME") as [bucket|]; [|discriminate].
    cbv zeta. destruct (list_objects_v2 w bucket _) as [[items|]|e];
      try discriminate.
    + destruct (for_each_item proc w bucket items _) as [[[]|e] tr];
        [|discriminate].
      simpl. now intros [= <-].
    + simpl. now intros [= <-].
Qed.

Lemma status_code_200_witness :
  statusCode {| statusCode := 200; body := json_dumps "Started Batch Job: job-0" |}
    = 200.
Proof.
  apply (status_code_200 Examples.deployed (Examples.world Examples.db_up None)
           (Examples.notification "docs" "in/x.pdf")).
  vm_compute. reflexivity.
Defined.

(** X12.  Only the first record of a notification is looked at: the records
    after it change nothing, their objects are neither probed nor
    submitted. *)
Theorem later_records_ignored proc w request_type record rest :
  invoke proc w {| RequestType := request_type; Records := Some (record :: rest) |} =
  invoke proc w {| RequestType := request_type; Records := Some [record] |}
  /\
  (request_type <> Some "Delete" ->
   head_probes
     (snd (invoke proc w
             {| RequestType := request_type; Records := Some (record :: rest) |})) =
     [(bucket_name record, decode_key (object_key record))]).
Proof.
  split.
  - unfold invoke, lambda_handler. simpl.
    destruct (decide (request_type = Some "Delete")); reflexivity.
  - intros Hne.
    assert (Hs : storage_change
                   {| RequestType := request_type; Records := Some (record :: rest) |}
                   record).
    { split; [exact Hne | reflexivity]. }
    exact (proj1 (storage_change_trace proc w _ record Hs)).
Qed.

(** X13.  An event with an empty list of records is handled like one without
    the key [Records]: as a bulk listing. *)
Theorem empty_records_is_bulk proc w request_type :
  invoke proc w {| RequestType := request_type; Records := Some [] |} =
  invoke proc w {| RequestType := request_type; Records := None |}
  /\
  (request_type <> Some "Delete" ->
   bulk_listing {| RequestType := request_type; Records := Some [] |}).
Proof.
  split.
  - unfold invoke, lambda_handler. simpl.
    destruct (decide (request_type = Some "Delete")); reflexivity.
  - intros Hne. split; [exact Hne | reflexivity].
Qed.

(** ** More on keys and file names *)

Lemma replace_from_absent old new s :
  old <> EmptyString -> Str.contains old s = false ->
  Str.replace_from old new 0 s = s.
Proof.
  intros Hne. induction s as [|c t IH]; [reflexivity|].
  rewrite contains_cons. intros H. apply orb_false_iff in H as [Hs Ht].
  cbn [Str.replace_from]. rewrite Hs, (IH Ht). reflexivity.
Qed.

Lemma replace_absent old new s :
  old <> EmptyString -> Str.contains old s = false -> Str.replace old new s = s.
Proof.
  intros Hne H. unfold Str.replace. destruct old; [contradiction|].
  now apply replace_from_absent.
Qed.

Lemma contains_percent20 s :
  Str.contains "%" s = false -> Str.contains "%20" s = false.
Proof.
  induction s as [|c t IH]; [reflexivity|].
  rewrite !contains_cons. intros H. apply orb_false_iff in H as [Hs Ht].
  rewrite (IH Ht), orb_false_r. cbn [Str.startswith] in Hs |- *.
  destruct ("%" =? c)%char; [discriminate Hs | reflexivity].
Qed.

(** X14.  A key without [%] and without [+] is used as it is: for such keys the
    decoding changes nothing. *)
Theorem decode_key_plain key :
  Str.contains "%" key = false -> Str.contains "+" key = false ->
  decode_key key = key.
Proof.
  intros Hp Hplus. unfold decode_key, Str.unquote. rewrite Hp.
  rewrite (replace_absent "+" " " key) by (discriminate || assumption).
  apply replace_absent; [discriminate | now apply contains_percent20].
Qed.

Lemma decode_key_plain_witness : decode_key "in/reports/q1.pdf" = "in/reports/q1.pdf".
Proof. apply decode_key_plain; reflexivity. Defined.

Lemma rfind_from_found c s : forall i,
  0 <= i ->
  (Str.contains (String c EmptyString) s = false /\ Str.rfind_from c i s = -1) \/
  (Str.contains (String c EmptyString) s = true /\
   i <= Str.rfind_from c i s /\
   Str.rfind_from c i s - i = Str.rfind_from c 0 s).
Proof.
  induction s as [|a t IH]; intros i Hi.
  - left. split; reflexivity.
  - rewrite contains_cons. cbn [Str.rfind_from Str.startswith].
    rewrite andb_true_r, (Ascii.eqb_sym c a).
    destruct (IH (i + 1)) as [[Hc Hr]|(Hc & Hle & Hr)]; [lia| |];
      destruct (IH (0 + 1)) as [[Hc0 Hr0]|(Hc0 & Hle0 & Hr0)]; try lia;
      try congruence; rewrite Hc.
    + rewrite Hr, Hr0. simpl (0 <=? -1).
      destruct (a =? c)%char; [right | left]; simpl; repeat split; lia.
    + right. rewrite orb_true_r.
      destruct (0 <=? Str.rfind_from c (i + 1) t) eqn:E1; [|lia].
      destruct (0 <=? Str.rfind_from c (0 + 1) t) eqn:E0; [|lia].
      repeat split; lia.
Qed.

Lemma slice_from_succ (k : nat) c t :
  Str.slice_from (S k) (String c t) = Str.slice_from k t.
Proof. reflexivity. Qed.

(** [basename] along the string. *)
Lemma basename_cons c t :
  Str.basename (String c t) =
  if Str.contains "/" t then Str.basename t
  else if (c =? "/")%char then t else String c t.
Proof.
  unfold Str.basename, Str.rfind. cbn [Str.rfind_from].
  destruct (rfind_from_found "/" t (0 + 1)) as [[Hc Hr]|(Hc & Hle & Hr)]; [lia| |];
    rewrite Hc.
  - rewrite Hr. simpl (0 <=? -1). destruct (c =? "/")%char; reflexivity.
  - destruct (0 <=? Str.rfind_from "/" (0 + 1) t) eqn:E; [|lia].
    replace (Str.rfind_from "/" (0 + 1) t + 1)
      with (Z.succ (Str.rfind_from "/" 0 t + 1)) by lia.
    rewrite Z2Nat.inj_succ by lia. apply slice_from_succ.
Qed.

Lemma basename_no_slash p : Str.contains "/" (Str.basename p) = false.
Proof.
  induction p as [|c t IH]; [reflexivity|]. rewrite basename_cons.
  destruct (Str.contains "/" t) eqn:Ht; [exact IH|].
  destruct (c =? "/")%char eqn:Hc; [exact Ht|].
  rewrite contains_cons, Ht, orb_false_r. cbn [Str.startswith].
  rewrite Ascii.eqb_sym, Hc. reflexivity.
Qed.

Lemma contains_append_right pat a b :
  Str.startswith pat b = true -> Str.contains pat (a +:+ b) = true.
Proof.
  intros H. induction a as [|c a IH]; simpl.
  - destruct b; simpl in *; rewrite H; reflexivity.
  - change (Str.contains pat (String c (a +:+ b)) = true).
    rewrite contains_cons, IH. apply orb_true_r.
Qed.

(** X15.  [os.path.basename] gives the part of a path after its last slash: the
    path is a directory part followed by the basename, the directory part
    is empty or ends with a slash, and the basename holds no slash.  So the
    basename of [dir/name] is [name] when [name] has no slash, and a path
    without a slash is its own basename. *)
Theorem basename_after_last_slash p :
  Str.contains "/" (Str.basename p) = false /\
  (exists dir, p = dir +:+ Str.basename p /\
               (dir = "" \/ exists d, dir = d +:+ "/")) /\
  (forall dir name, p = dir +:+ "/" +:+ name -> Str.contains "/" name = false ->
     Str.basename p = name) /\
  (Str.contains "/" p = false -> Str.basename p = p).
Proof.
  split; [apply basename_no_slash|]. split; [|split].
  - induction p as [|c t IH]; [exists ""; split; [reflexivity | now left]|].
    rewrite basename_cons. destruct (Str.contains "/" t) eqn:Ht.
    + destruct IH as (dir & Hdir & Hend). exists (String c dir).
      split; [change (String c t = String c (dir +:+ Str.basename t)); now f_equal|].
      right.
      destruct Hend as [->|[d ->]].
      * change (t = Str.basename t) in Hdir.
        pose proof (basename_no_slash t) as Hno. rewrite <- Hdir in Hno.
        congruence.
      * now exists (String c d).
    + destruct (c =? "/")%char eqn:Hc.
      * apply Ascii.eqb_eq in Hc as ->. exists "/". split; [reflexivity|].
        right. now exists "".
      * exists "". split; [reflexivity | now left].
  - intros dir name -> Hname. induction dir as [|c dir IH].
    + change ("" +:+ "/" +:+ name) with (String "/" name).
      rewrite basename_cons, Hname. reflexivity.
    + change (String c dir +:+ "/" +:+ name) with (String c (dir +:+ "/" +:+ name)).
      rewrite basename_cons, contains_append_right; [exact IH|].
      reflexivity.
  - induction p as [|c t IH]; [reflexivity|].
    rewrite contains_cons. intros H. apply orb_false_iff in H as [Hs Ht].
    rewrite basename_cons, Ht. cbn [Str.startswith] in Hs.
    rewrite andb_true_r, Ascii.eqb_sym in Hs. now rewrite Hs.
Qed.

(** ** Deletion and submission of a change notification *)

Lemma storage_change_found_split proc w event record :
  storage_change event record ->
  head_object w (bucket_name record) (decode_key (object_key record)) = Return tt ->
  first_missing proc postgres_variables = None ->
  let bucket := bucket_name record in
  let key := decode_key (object_key record) in
  exists pre post,
    snd (invoke proc w event) = pre ++ post /\
    deletion_requests pre = [deletion_request proc (Str.basename key)] /\
    job_requests pre = [] /\
    database_calls post = [] /\
    (post = [] \/ post = [SubmitJob (job_request proc w 0 (s3_url_of bucket key))]).
Proof.
  intros Hs Hh Hp bucket key.
  destruct (storage_change_found proc w event record Hs Hh Hp)
    as (l & (Hj & Hd & _) & Hrun).
  fold bucket key in Hrun. rewrite Hrun.
  destruct (add_files_trace proc w (s3_url_of bucket key)
              ([Print LogS3Event; HeadObject bucket key; Print (LogObjectExists key);
                Delete (deletion_request proc (Str.basename key))] ++ l))
    as (post & -> & _ & _ & Hpost).
  rewrite job_requests_app, Hj in Hpost. simpl in Hpost.
  eexists _, post. split; [reflexivity|].
  rewrite deletion_requests_app, job_requests_app, Hd, Hj.
  split; [reflexivity|]. split; [reflexivity|].
  split; [destruct Hpost as [->| ->]; reflexivity | exact Hpost].
Qed.

(** X16.  The deletion is keyed by the file name alone: two notifications whose
    decoded keys have the same basename lead to the same DeletionRequest,
    whatever the folders and the buckets of the two objects are. *)
Theorem deletion_keyed_by_basename proc w1 w2 event1 event2 record1 record2 :
  storage_change event1 record1 ->
  storage_change event2 record2 ->
  head_object w1 (bucket_name record1) (decode_key (object_key record1)) = Return tt ->
  head_object w2 (bucket_name record2) (decode_key (object_key record2)) = Return tt ->
  first_missing proc postgres_variables = None ->
  Str.basename (decode_key (object_key record1)) =
    Str.basename (decode_key (object_key record2)) ->
  deletion_requests (snd (invoke proc w1 event1)) =
    deletion_requests (snd (invoke proc w2 event2)) /\
  map del_filename (deletion_requests (snd (invoke proc w1 event1))) =
    [Str.basename (decode_key (object_key record1))].
Proof.
  intros Hs1 Hs2 Hh1 Hh2 Hp Heq.
  destruct (storage_change_found_split proc w1 event1 record1 Hs1 Hh1 Hp)
    as (pre1 & post1 & -> & Hd1 & _ & _ & Hpost1).
  destruct (storage_change_found_split proc w2 event2 record2 Hs2 Hh2 Hp)
    as (pre2 & post2 & -> & Hd2 & _ & _ & Hpost2).
  assert (H1 : deletion_requests post1 = [])
    by (destruct Hpost1 as [->| ->]; reflexivity).
  assert (H2 : deletion_requests post2 = [])
    by (destruct Hpost2 as [->| ->]; reflexivity).
  rewrite !deletion_requests_app, Hd1, Hd2, H1, H2, Heq. split; reflexivity.
Qed.

Lemma deletion_keyed_by_basename_witness :
  let w := Examples.world Examples.db_up None in
  deletion_requests
    (snd (invoke Examples.deployed w (Examples.notification "docs" "2023/report.pdf"))) =
  deletion_requests
    (snd (invoke Examples.deployed w
            (Examples.notification "archive" "drafts/2024/report.pdf"))).
Proof.
  intros w.
  assert (Hs1 : storage_change (Examples.notification "docs" "2023/report.pdf")
                  {| bucket_name := "docs"; object_key := "2023/report.pdf" |}).
  { split; [discriminate | reflexivity]. }
  assert (Hs2 : storage_change
                  (Examples.notification "archive" "drafts/2024/report.pdf")
                  {| bucket_name := "archive";
                     object_key := "drafts/2024/report.pdf" |}).
  { split; [discriminate | reflexivity]. }
  assert (Hp : first_missing Examples.deployed postgres_variables = None)
    by (vm_compute; reflexivity).
  exact (proj1 (deletion_keyed_by_basename Examples.deployed w w _ _ _ _ Hs1 Hs2
                  eq_refl eq_refl Hp eq_refl)).
Defined.

(** X17.  On a change notification the probe comes first and the submission
    last: the trace starts with the log line and the existence probe, and
    a job that is submitted is the last event, after every call to the
    database and every log line of the deletion. *)
Theorem submission_comes_last proc w event record :
  storage_change event record ->
  let bucket := bucket_name record in
  let key := decode_key (object_key record) in
  let tr := snd (invoke proc w event) in
  (exists rest, tr = Print LogS3Event :: HeadObject bucket key :: rest) /\
  (forall j, In j (job_requests tr) ->
     exists pre, tr = pre ++ [SubmitJob j] /\
                 job_requests pre = [] /\
                 deletion_requests pre = deletion_requests tr /\
                 database_calls pre = database_calls tr).
Proof.
  intros Hs bucket key tr. unfold tr.
  pose proof (storage_change_run proc w event record Hs) as Hrun.
  cbv zeta in Hrun. fold bucket key in Hrun.
  assert (Hadd : forall pre rest,
            pre = Print LogS3Event :: HeadObject bucket key :: rest ->
            job_requests pre = [] ->
            let tr1 := snd (add_files proc w (s3_url_of bucket key) pre) in
            (exists rest', tr1 = Print LogS3Event :: HeadObject bucket key :: rest') /\
            (forall j, In j (job_requests tr1) ->
               exists pre', tr1 = pre' ++ [SubmitJob j] /\
                            job_requests pre' = [] /\
                            deletion_requests pre' = deletion_requests tr1 /\
                            database_calls pre' = database_calls tr1)).
  { intros pre rest Hpre Hj tr1. unfold tr1.
    destruct (add_files_trace proc w (s3_url_of bucket key) pre)
      as (l & -> & _ & _ & Hl).
    split; [rewrite Hpre; eexists; reflexivity|].
    intros j Hin. rewrite job_requests_app, Hj in Hin.
    destruct Hl as [->| ->]; simpl in Hin; [contradiction|].
    destruct Hin as [<-|[]]. exists pre. split; [reflexivity|].
    split; [exact Hj|].
    rewrite deletion_requests_app, database_calls_app, !app_nil_r.
    split; reflexivity. }
  assert (Hnone : forall r : outcome Response,
            let tr1 := snd (r, [Print LogS3Event; HeadObject bucket key]) in
            (exists rest', tr1 = Print LogS3Event :: HeadObject bucket key :: rest') /\
            (forall j, In j (job_requests tr1) ->
               exists pre', tr1 = pre' ++ [SubmitJob j] /\
                            job_requests pre' = [] /\
                            deletion_requests pre' = deletion_requests tr1 /\
                            database_calls pre' = database_calls tr1)).
  { intros r. simpl. split; [eexists; reflexivity | contradiction]. }
  rewrite Hrun. destruct (head_object w bucket key) as [[]|e].
  - destruct (first_missing proc postgres_variables).
    + simpl. split; [eexists; reflexivity | contradiction].
    + destruct (deletion_step_run proc w (deletion_request proc (Str.basename key))
                  ([Print LogS3Event; HeadObject bucket key] ++
                   [Print (LogObjectExists key)])) as (l & -> & Hj & _).
      cbn [snd]. eapply Hadd; [simpl; reflexivity|].
      rewrite job_requests_app. simpl. exact Hj.
  - destruct e as [k|n|code|descr]; try apply Hnone.
    destruct (String.eqb code "404"); [|apply Hnone].
    eapply Hadd; reflexivity.
Qed.

Lemma submission_comes_last_witness :
  exists pre,
    snd (invoke Examples.deployed (Examples.world Examples.db_up None)
           (Examples.notification "docs" "in/x.pdf")) =
      pre ++ [SubmitJob (job_request Examples.deployed
                           (Examples.world Examples.db_up None) 0
                           "s3://docs/in/x.pdf")] /\
    In CloseConnection pre.
Proof.
  assert (Hs : storage_change (Examples.notification "docs" "in/x.pdf")
                 {| bucket_name := "docs"; object_key := "in/x.pdf" |}).
  { split; [discriminate | reflexivity]. }
  destruct (submission_comes_last Examples.deployed
              (Examples.world Examples.db_up None) _ _ Hs) as [_ Hlast].
  destruct (Hlast (job_request Examples.deployed (Examples.world Examples.db_up None)
                     0 "s3://docs/in/x.pdf")) as (pre & Htr & _ & _ & Hdb).
  { vm_compute. tauto. }
  exists pre. split; [exact Htr|].
  assert (Hin : In CloseConnection (database_calls pre)).
  { rewrite Hdb. vm_compute. tauto. }
  apply List.filter_In in Hin. tauto.
Defined.
